(** * SuccessFactors -> BigQuery ingestion: metadata parsing and SQL synthesis

    A shallow embedding of the Python sources [ingest.py] and
    [bigquery_sq_utils.py]: the OData [$metadata] parser, the type tables,
    the DDL / INSERT..SELECT / MERGE text builders, the pagination loop and
    the row-count request, followed by the properties proved about them. *)

From Stdlib Require Import Ascii String ZArith List Lia DecimalString.
From stdpp Require Import base option list strings gmap.

Local Open Scope Z_scope.
Local Open Scope stdpp_scope.

(** ** Python exceptions and fallible computations *)

Inductive exn : Type :=
  | KeyError
  | IndexError
  | TypeError
  | AttributeError
  | UnboundLocalError
  | ValueError
  | RequestException
  | Exception (msg : string).

Inductive result (A : Type) : Type :=
  | Ok (a : A)
  | Raise (e : exn).

Arguments Ok {A} a.
Arguments Raise {A} e.

#[global] Instance result_ret : MRet result := fun A a => Ok a.
#[global] Instance result_bind : MBind result := fun A B f r =>
  match r with
  | Ok a => f a
  | Raise e => Raise e
  end.

(** Evaluate [f] on every element, left to right; the first exception wins. *)
Fixpoint mapM {A B : Type} (f : A -> result B) (l : list A) : result (list B) :=
  match l with
  | [] => Ok []
  | x :: rest =>
      y ← f x;
      ys ← mapM f rest;
      Ok (y :: ys)
  end.

(** ** Text helpers *)

Definition nl : string := String "010"%char EmptyString.
Definition tab : string := String "009"%char EmptyString.
Definition dq : string := String "034"%char EmptyString.

(** [sep.join(items)] *)
Fixpoint join (sep : string) (items : list string) : string :=
  match items with
  | [] => ""
  | [x] => x
  | x :: rest => x +:+ sep +:+ join sep rest
  end.

Fixpoint chars (s : string) : list string :=
  match s with
  | EmptyString => []
  | String c rest => String c EmptyString :: chars rest
  end.

(** ** Values produced by [xmltodict.parse]

    An XML element becomes [None] (empty), a [str] (text only), a [list]
    (repeated siblings) or a [dict].  In a dict the XML attributes are the
    keys that start with ['@'] and always hold a [str]; the other keys are
    child elements.  [XDict] keeps the two groups apart: [attrs] holds the
    ['@']-keys (prefix included), [elems] the rest, in document order. *)

#[warnings="-register-all"]
Inductive xml : Type :=
  | XNone
  | XStr (s : string)
  | XList (items : list xml)
  | XDict (attrs : list (string * string)) (elems : list (string * xml)).

Fixpoint assoc {A : Type} (k : string) (d : list (string * A)) : option A :=
  match d with
  | [] => None
  | (k', v) :: rest => if decide (k' = k) then Some v else assoc k rest
  end.

(** [v[k]] for a child-element key [k]. *)
Definition subscript (v : xml) (k : string) : result xml :=
  match v with
  | XDict _ elems =>
      match assoc k elems with
      | Some x => Ok x
      | None => Raise KeyError
      end
  | _ => Raise TypeError
  end.

(** [v[k]] for an attribute key [k] (one that starts with ['@']). *)
Definition subscript_attr (v : xml) (k : string) : result string :=
  match v with
  | XDict attrs _ =>
      match assoc k attrs with
      | Some s => Ok s
      | None => Raise KeyError
      end
  | _ => Raise TypeError
  end.

(** [v[i]] for an integer index [i >= 0]. *)
Definition subscript_int (v : xml) (i : nat) : result xml :=
  match v with
  | XList items =>
      match items !! i with
      | Some x => Ok x
      | None => Raise IndexError
      end
  | XStr s =>
      match chars s !! i with
      | Some c => Ok (XStr c)
      | None => Raise IndexError
      end
  | XDict _ _ => Raise KeyError
  | XNone => Raise TypeError
  end.

(** [v.get(k, False)] for an attribute key, read for its truth value and,
    when truthy, its text: [Some s] with [s] non-empty, or [None]. *)
Definition get_attr_truthy (v : xml) (k : string) : result (option string) :=
  match v with
  | XDict attrs _ =>
      match assoc k attrs with
      | Some s => if decide (s = "") then Ok None else Ok (Some s)
      | None => Ok None
      end
  | _ => Raise AttributeError
  end.

(** [for x in v]: the items a comprehension iterates over. *)
Definition py_iter (v : xml) : result (list xml) :=
  match v with
  | XList items => Ok items
  | XDict attrs elems => Ok (map (fun kv => XStr (fst kv)) attrs ++ map (fun kv => XStr (fst kv)) elems)
  | XStr s => Ok (map XStr (chars s))
  | XNone => Raise TypeError
  end.

(** ** The normalized entity descriptor built by [process_metadata] *)

Record field_dict : Type := mk_field {
  f_name : string;
  f_type : option string;        (* [None] is Python's [None] *)
  f_mode : string;
  f_description : string
}.

Record entity_dict : Type := mk_entity {
  name : string;
  keys : list string;
  fields : list field_dict;
  module : xml;
  description : xml
}.

(** ** ingest.py: type tables *)

Definition data_type_mapping : gmap string string :=
  list_to_map [
    ("Edm.Binary", "BYTES");
    ("Edm.Boolean", "BOOL");
    ("Edm.DateTime", "DATETIME");
    ("Edm.Time", "TIMESTAMP");
    ("Edm.Int64", "INTEGER");
    ("Edm.Decimal", "DECIMAL");
    ("Edm.Double", "FLOAT64");
    ("Edm.Float", "FLOAT64");
    ("Edm.Single", "FLOAT64");
    ("Edm.Int32", "INTEGER");
    ("Edm.Byte", "INTEGER");
    ("Edm.Int16", "INTEGER");
    ("Edm.SByte", "INTEGER");
    ("Edm.DateTimeOffset", "TIMESTAMP");
    ("Edm.Guid", "STRING");
    ("Edm.String", "STRING")
  ].

(** ** ingest.py: [get_columns_description] *)

Definition get_columns_description (field : xml) : result string :=
  picklist ← get_attr_truthy field "@sap:picklist";
  match picklist with
  | Some _ =>
      label ← subscript_attr field "@sap:label";
      pick ← subscript_attr field "@sap:picklist";
      Ok (label +:+ ". PickList: " +:+ pick +:+ ".")
  | None =>
      label ← subscript_attr field "@sap:label";
      Ok (label +:+ ".")
  end.

(** ** ingest.py: [process_metadata] *)

(** The [Schema] list of the EDMX envelope. *)
Definition schema_list (metadata : xml) : result xml :=
  edmx ← subscript metadata "edmx:Edmx";
  services ← subscript edmx "edmx:DataServices";
  subscript services "Schema".

(** [fields_schema['EntityType']['Key']['PropertyRef']] *)
Definition key_property_ref (fields_schema : xml) : result xml :=
  entity_type ← subscript fields_schema "EntityType";
  key ← subscript entity_type "Key";
  subscript key "PropertyRef".

(** The [if isinstance(..., Dict) ... else ...] block computing [keys]. *)
Definition entity_keys (fields_schema : xml) : result (list string) :=
  pref ← key_property_ref fields_schema;
  match pref with
  | XDict _ _ =>
      pref' ← key_property_ref fields_schema;
      k ← subscript_attr pref' "@Name";
      Ok [k]
  | _ =>
      pref' ← key_property_ref fields_schema;
      items ← py_iter pref';
      mapM (fun key => subscript_attr key "@Name") items
  end.

(** One step of the [fields] comprehension: [None] when the property is
    filtered out by [@sap:visible]. *)
Definition entity_field (field : xml) : result (option field_dict) :=
  visible ← subscript_attr field "@sap:visible";
  if decide (visible = "true") then
    fname ← subscript_attr field "@Name";
    ftype ← subscript_attr field "@Type";
    nullable ← subscript_attr field "@Nullable";
    descr ← get_columns_description field;
    Ok (Some {| f_name := fname;
                f_type := data_type_mapping !! ftype;
                f_mode := if decide (nullable = "true") then "" else "NOT NULL";
                f_description := descr |})
  else Ok None.

(** The properties that passed the [if] of the comprehension. *)
Definition kept (built : list (option field_dict)) : list field_dict :=
  omap id built.

Definition entity_fields (metadata : xml) : result (list field_dict) :=
  schemas ← schema_list metadata;
  fields_schema ← subscript_int schemas 1%nat;
  entity_type ← subscript fields_schema "EntityType";
  props ← subscript entity_type "Property";
  items ← py_iter props;
  built ← mapM entity_field items;
  Ok (kept built).

Definition module_error : string :=
  "Could not extract SSFF module name from the metadata".

(** The [isinstance(tags, List) / isinstance(tags, str) / else raise] block. *)
Definition entity_module (tags : xml) : result xml :=
  match tags with
  | XList _ => subscript_int tags 0%nat
  | XStr _ => Ok tags
  | _ => Raise (Exception module_error)
  end.

Definition documentation_tags (documentation : xml) : result xml :=
  collection ← subscript documentation "sap:tagcollection";
  subscript collection "sap:tag".

(** [metadata['edmx:Edmx']['edmx:DataServices']['Schema'][i]] *)
Definition schema_at (metadata : xml) (i : nat) : result xml :=
  schemas ← schema_list metadata;
  subscript_int schemas i.

(** What [process_metadata] has computed when it reaches the
    [# Entity module] block. *)
Record parts : Type := mk_parts {
  p_documentation : xml;
  p_name : string;
  p_description : xml;
  p_keys : list string;
  p_fields : list field_dict
}.

Definition entity_parts (metadata : xml) : result parts :=
  doc_schema ← schema_at metadata 0%nat;
  fields_schema ← schema_at metadata 1%nat;
  container ← subscript doc_schema "EntityContainer";
  entity_set ← subscript container "EntitySet";
  documentation ← subscript entity_set "Documentation";
  entity_type ← subscript fields_schema "EntityType";
  ename ← subscript_attr entity_type "@Name";
  entity_description ← subscript documentation "LongDescription";
  ekeys ← entity_keys fields_schema;
  efields ← entity_fields metadata;
  Ok {| p_documentation := documentation;
        p_name := ename;
        p_description := entity_description;
        p_keys := ekeys;
        p_fields := efields |}.

Definition process_metadata (metadata : xml) : result entity_dict :=
  located ← entity_parts metadata;
  tags ← documentation_tags (p_documentation located);
  emodule ← entity_module tags;
  Ok {| name := p_name located;
        keys := p_keys located;
        fields := p_fields located;
        module := emodule;
        description := p_description located |}.

(** ** DDL synthesis: [create_bq_final_table], [create_bq_refined_table],
    [create_bq_raw_table] *)

Definition sp4 : string := "    ".
Definition sp8 : string := "        ".
Definition sp12 : string := "            ".

(** [a + b] where [b] may be [None]: concatenating [None] to a [str] raises. *)
Definition str_add_opt (a : string) (b : option string) : result string :=
  match b with
  | Some s => Ok (a +:+ s)
  | None => Raise TypeError
  end.

(** [field['name'] + " " + field['type'] + " " + field['mode'] + " " +
    "OPTIONS(description='" + field['description'] + "')"] *)
Definition column_definition (field : field_dict) : result string :=
  with_type ← str_add_opt (f_name field +:+ " ") (f_type field);
  Ok (with_type +:+ " " +:+ f_mode field +:+ " " +:+
      "OPTIONS(description='" +:+ f_description field +:+ "')").

(** [field['name'] + " " + field['type']] *)
Definition raw_column_definition (field : field_dict) : result string :=
  str_add_opt (f_name field +:+ " ") (f_type field).

(** [if field['type'] != 'BOOL': field.update({'type': 'STRING'})] *)
Definition widen_field (field : field_dict) : field_dict :=
  if decide (f_type field = Some "BOOL") then field
  else {| f_name := f_name field;
          f_type := Some "STRING";
          f_mode := f_mode field;
          f_description := f_description field |}.

(** The descriptor after the [for field in fields] loop of
    [create_bq_raw_table] has run over it. *)
Definition widen_fields (metadata : entity_dict) : entity_dict :=
  {| name := name metadata;
     keys := keys metadata;
     fields := map widen_field (fields metadata);
     module := module metadata;
     description := description metadata |}.

(** The [ddl] f-string of [create_bq_raw_table], built from the fields as
    they are when it is evaluated. *)
Definition create_bq_raw_table_ddl (table_id : string) (metadata : entity_dict)
  : result string :=
  columns ← mapM raw_column_definition (fields metadata);
  Ok (nl +:+
      sp8 +:+ "CREATE TABLE IF NOT EXISTS " +:+ table_id +:+ "(" +:+ nl +:+
      sp12 +:+ join "," columns +:+ nl +:+
      sp8 +:+ ");" +:+ nl +:+
      sp4).

(** [s.find(c)] for a one-character [c]: the first index, or [-1]. *)
Fixpoint find_from (c : ascii) (s : string) (i : Z) : Z :=
  match s with
  | EmptyString => -1
  | String d rest => if decide (d = c) then i else find_from c rest (i + 1)
  end.

Definition str_find (c : ascii) (s : string) : Z := find_from c s 0.

(** [s[start:stop]]: a negative index counts from the end, and both ends
    are clipped to the text. *)
Definition str_slice (s : string) (start stop : Z) : string :=
  let len := Z.of_nat (String.length s) in
  let clip i := if i <? 0 then Z.max 0 (i + len) else Z.min i len in
  substring (Z.to_nat (clip start)) (Z.to_nat (clip stop - clip start)) s.

(** [f'{project}'] for the result of [os.getenv]. *)
Definition str_of_env (v : option string) : string :=
  match v with
  | Some s => s
  | None => "None"
  end.

Section Synthesis.

(** [str(v)] of a list or dict (Python's [repr] of containers), used when
    an f-string interpolates a non-text value. *)
Variable py_repr : xml -> string.

(** [str.lower] and [str.strip]. *)
Variable str_lower : string -> string.
Variable str_strip : string -> string.

(** [f'{v}'] *)
Definition py_str (v : xml) : string :=
  match v with
  | XStr s => s
  | XNone => "None"
  | _ => py_repr v
  end.

(** [module[module.find("(")+1: module.find(")")].lower().strip()]; a module
    that is not a [str] has no [find]. *)
Definition dataset_module (emodule : xml) : result string :=
  match emodule with
  | XStr s =>
      Ok (str_strip (str_lower
            (str_slice s (str_find "("%char s + 1) (str_find ")"%char s))))
  | _ => Raise AttributeError
  end.

(** [f'{project}.ds_sfsf_{dataset_module}'] *)
Definition dataset_id (project : option string) (emodule : xml) : result string :=
  code ← dataset_module emodule;
  Ok (str_of_env project +:+ ".ds_sfsf_" +:+ code).

(** The [ddl] f-string of [create_bq_final_table]; [table_id] is the
    identifier computed just before it. *)
Definition create_bq_final_table_ddl (table_id : string) (metadata : entity_dict)
  : result string :=
  columns ← mapM column_definition (fields metadata);
  Ok (nl +:+
      sp8 +:+ "CREATE TABLE IF NOT EXISTS " +:+ table_id +:+ "(" +:+ nl +:+
      sp12 +:+ join "," columns +:+ nl +:+
      sp8 +:+ ")" +:+ nl +:+
      sp8 +:+ "PARTITION BY DATE_TRUNC(_PARTITIONTIME, DAY)" +:+ nl +:+
      sp8 +:+ "CLUSTER BY " +:+ join "," (keys metadata) +:+ nl +:+
      sp8 +:+ "OPTIONS (" +:+ nl +:+
      sp12 +:+ "description='" +:+ py_str (description metadata) +:+ "'" +:+ nl +:+
      sp8 +:+ ");" +:+ nl +:+
      sp4).

(** The [ddl] f-string of [create_bq_refined_table]. *)
Definition create_bq_refined_table_ddl (table_id : string) (metadata : entity_dict)
  : result string :=
  columns ← mapM column_definition (fields metadata);
  Ok (nl +:+
      sp8 +:+ "CREATE TABLE IF NOT EXISTS " +:+ table_id +:+ "(" +:+ nl +:+
      sp12 +:+ join "," columns +:+ nl +:+
      sp8 +:+ ")" +:+ nl +:+
      sp8 +:+ "CLUSTER BY " +:+ join "," (keys metadata) +:+ nl +:+
      sp8 +:+ "OPTIONS (" +:+ nl +:+
      sp12 +:+ "description='" +:+ py_str (description metadata) +:+ "'" +:+ nl +:+
      sp8 +:+ ");" +:+ nl +:+
      sp4).

(** [create_bq_final_table]: the table identifier it returns and the
    statement it sends to the warehouse; [project] is [PROJECT_ID]. *)
Definition create_bq_final_table (project : option string) (metadata : entity_dict)
  : result (string * string) :=
  dataset ← dataset_id project (module metadata);
  let table_id := dataset +:+ "." +:+ name metadata in
  ddl ← create_bq_final_table_ddl table_id metadata;
  Ok (table_id, ddl).

(** [create_bq_refined_table]; [project] is [RF_PROJECT_ID]. *)
Definition create_bq_refined_table (project : option string) (metadata : entity_dict)
  : result (string * string) :=
  dataset ← dataset_id project (module metadata);
  let table_id := dataset +:+ "." +:+ name metadata in
  ddl ← create_bq_refined_table_ddl table_id metadata;
  Ok (table_id, ddl).

(** [create_bq_raw_table].  [parsed_metadata] is one Python dict handed to
    every step of the run, and the loop at the top of this function rewrites
    the ['type'] entry of its field dicts in place ([field.update]); so the
    function gives back the descriptor as it is left in memory, next to the
    table identifier and the statement. *)
Definition create_bq_raw_table (project : option string) (metadata : entity_dict)
  : entity_dict * result (string * string) :=
  let metadata' := widen_fields metadata in
  (metadata',
   dataset ← dataset_id project (module metadata');
   let table_id := dataset +:+ ".temp_" +:+ name metadata' in
   ddl ← create_bq_raw_table_ddl table_id metadata';
   Ok (table_id, ddl)).

End Synthesis.

(** ** ingest.py: [insert_data_into_bq], the load-job schema *)

Record schema_field : Type := SchemaField {
  sf_name : string;
  field_type : string
}.

(** ["STRING" if field['type'] != 'BOOL' else field['type']] *)
Definition load_job_schema (metadata : entity_dict) : list schema_field :=
  map (fun field =>
         SchemaField (f_name field)
           (if decide (f_type field = Some "BOOL") then "BOOL" else "STRING"))
      (fields metadata).

(** ** [str.format] templates *)

Inductive piece : Type :=
  | Lit (text : string)
  | Hole (key : string).

(** [template.format(key=value, ...)]: a placeholder without a keyword argument
    raises [KeyError]; unused keyword arguments are ignored. *)
Fixpoint format (template : list piece) (kwargs : gmap string string) : result string :=
  match template with
  | [] => Ok ""
  | Lit text :: rest =>
      tail ← format rest kwargs;
      Ok (text +:+ tail)
  | Hole key :: rest =>
      match kwargs !! key with
      | Some v =>
          tail ← format rest kwargs;
          Ok (v +:+ tail)
      | None => Raise KeyError
      end
  end.

(** ** ingest.py: [data_type_conversion_mapping] and [insert_raw_into_final_bq] *)

Definition data_type_conversion_mapping : gmap string (list piece) :=
  list_to_map [
    ("STRING", [Hole "field_name"]);
    ("DATETIME",
      [Lit "EXTRACT(DATETIME FROM TIMESTAMP_MILLIS(CAST(REGEXP_EXTRACT(";
       Hole "field_name";
       Lit (", r" +:+ dq +:+ "/Date\((-?\d+)\)" +:+ dq +:+ ") AS INT64))) AS ");
       Hole "field_name"]);
    ("TIMESTAMP",
      [Lit "TIMESTAMP_MILLIS(CAST(REGEXP_EXTRACT(";
       Hole "field_name";
       Lit (", r" +:+ dq +:+ "/Date\(([-+]?\d+)\+0000\)/" +:+ dq +:+ ") AS INT64)) AS ");
       Hole "field_name"]);
    ("FLOAT",
      [Lit "CAST("; Hole "field_name"; Lit " AS FLOAT64) AS "; Hole "field_name"]);
    ("BYTES",
      [Lit "SELECT CAST(cast(REGEXP_EXTRACT(";
       Hole "field_name";
       Lit (", r" +:+ dq +:+ "[X|binary]'([A-Fa-f0-9][A-Fa-f0-9]*)'" +:+ dq +:+
            ") AS BYTES) AS STRING)")])
  ].

Definition default_conversion_expr : list piece :=
  [Lit "CAST("; Hole "field_name"; Lit " AS "; Hole "default_type"; Lit ") AS ";
   Hole "field_name"].

(** [{field.name: field.field_type for field in formatted_schema}]: a later
    field of the same name overwrites an earlier one. *)
Definition field_mapping (formatted_schema : list schema_field) : gmap string string :=
  foldl (fun m field => <[sf_name field := field_type field]> m) ∅ formatted_schema.

(** [str(type)] of the looked-up type, which is [None] for a missing name. *)
Definition str_of_type (type : option string) : string :=
  match type with
  | Some t => t
  | None => "None"
  end.

(** [data_type_conversion_mapping[type]] *)
Definition conversion_template (type : option string) : result (list piece) :=
  match type with
  | Some t =>
      match data_type_conversion_mapping !! t with
      | Some template => Ok template
      | None => Raise KeyError
      end
  | None => Raise KeyError
  end.

(** The body of the [for field in raw_schema] loop: the try block, the
    [except KeyError] fallback and the leading tab. *)
Definition select_line (mapping : gmap string string) (field : schema_field)
  : result string :=
  let type := mapping !! sf_name field in
  let attempt :=
    template ← conversion_template type;
    format template {[ "field_name" := sf_name field ]} in
  line ← match attempt with
         | Raise KeyError =>
             format default_conversion_expr
               (<["field_name" := sf_name field]>
                  {[ "default_type" := str_of_type type ]})
         | other => other
         end;
  Ok (tab +:+ line).

Definition insert_base_query : list piece :=
  [Lit (nl +:+ sp4 +:+ "INSERT INTO "); Hole "target_table"; Lit ("(" +:+ nl +:+ sp4);
   Hole "target_columns";
   Lit (nl +:+ sp4 +:+ ")" +:+ nl +:+ sp4 +:+ "SELECT" +:+ nl +:+ sp4);
   Hole "select_statement";
   Lit (nl +:+ sp4 +:+ "FROM "); Hole "source_table"; Lit (";" +:+ nl +:+ sp4)].

(** [final_insert_query]; [formatted_table] and [raw_table] are the texts the
    two table objects format to. *)
Definition insert_raw_into_final_bq
    (formatted_table raw_table : string)
    (formatted_schema raw_schema : list schema_field) : result string :=
  select_lines ← mapM (select_line (field_mapping formatted_schema)) raw_schema;
  format insert_base_query
    (<["table_name" := raw_table]>
     (<["select_statement" := join ("," +:+ nl) select_lines]>
      (<["source_table" := raw_table]>
       (<["target_table" := formatted_table]>
        {[ "target_columns" := join ("," +:+ nl) (map sf_name raw_schema) ]})))).

(** ** bigquery_sq_utils.py: [create_merge_query] *)

Definition merge_base_query : list piece :=
  [Lit (nl +:+ sp4 +:+ "MERGE INTO" +:+ nl +:+ sp4);
   Hole "rf_table_id";
   Lit (" AS target" +:+ nl +:+ sp4 +:+ "USING(" +:+ nl +:+ sp4 +:+ "SELECT" +:+ nl +:+ sp4);
   Hole "columns";
   Lit (nl +:+ sp4 +:+ "FROM ");
   Hole "raw_table_id";
   Lit (nl +:+ sp4 +:+
        "WHERE TIMESTAMP_TRUNC(_PARTITIONTIME, DAY) = TIMESTAMP(FORMAT_DATE(" +:+
        dq +:+ "%Y-%m-%d" +:+ dq +:+ ",CURRENT_DATE()))" +:+ nl +:+ sp4 +:+
        ") AS source" +:+ nl +:+ sp4 +:+ "ON ");
   Hole "condition";
   Lit (nl +:+ sp4 +:+ "WHEN MATCHED" +:+ nl +:+ sp4 +:+ "THEN UPDATE" +:+ nl +:+ sp4 +:+
        "SET" +:+ nl +:+ sp4);
   Hole "column_mapping";
   Lit (nl +:+ sp4 +:+ "WHEN NOT MATCHED BY TARGET" +:+ nl +:+ sp4 +:+
        "THEN INSERT(" +:+ nl +:+ sp4);
   Hole "columns";
   Lit (nl +:+ sp4 +:+ ")" +:+ nl +:+ sp4 +:+ "VALUES(" +:+ nl +:+ sp4);
   Hole "columns";
   Lit (nl +:+ sp4 +:+ ");" +:+ nl +:+ sp4)].

(** [column_names = [field['name'] for field in fields]] *)
Definition column_names (metadata : entity_dict) : list string :=
  map f_name (fields metadata).

(** [[f'source.{key}=target.{key}' for key in keys]] *)
Definition condition_items (metadata : entity_dict) : list string :=
  map (fun key => "source." +:+ key +:+ "=target." +:+ key) (keys metadata).

(** [[f'target.{column}=source.{column}' for column in column_names]] *)
Definition mapping_items (metadata : entity_dict) : list string :=
  map (fun column => "target." +:+ column +:+ "=source." +:+ column)
      (column_names metadata).

Definition merge_columns (metadata : entity_dict) : string :=
  join ", " (column_names metadata).

Definition merge_condition (metadata : entity_dict) : string :=
  join " AND " (condition_items metadata).

Definition merge_mapping (metadata : entity_dict) : string :=
  join ", " (mapping_items metadata).

(** The argument of [sqlparse.format]: [base_query.format(...)]. *)
Definition merge_query_text (metadata : entity_dict) (raw_table_id rf_table_id : string)
  : result string :=
  format merge_base_query
    (<["entity" := name metadata]>
     (<["raw_table_id" := raw_table_id]>
      (<["rf_table_id" := rf_table_id]>
       (<["columns" := merge_columns metadata]>
        (<["condition" := merge_condition metadata]>
         {[ "column_mapping" := merge_mapping metadata ]}))))).

Section Merge.

(** [sqlparse.format(text, reindent=True, keyword_case='upper')], the
    pretty-printer of the sqlparse package. *)
Variable sqlparse_format : string -> string.

Definition create_merge_query (metadata : entity_dict) (raw_table_id rf_table_id : string)
  : result string :=
  text ← merge_query_text metadata raw_table_id rf_table_id;
  Ok (sqlparse_format text).

End Merge.

(** ** The remote service, the local files and the console

    A run talks to the OData service and writes files and console lines.
    The service is given by the responses it sends, in the order the
    requests are made; everything the run does is appended to a trace. *)

Inductive event : Type :=
  | Request (url : string)
  | Print (text : string)
  | PrintExn (e : exn)
  | WriteFile (path content : string).

(** [str(n)] for integers. *)
Definition str_of_Z (n : Z) : string := NilZero.string_of_int (Z.to_int n).
Definition str_of_nat (n : nat) : string := NilZero.string_of_uint (Nat.to_uint n).

Definition api_root : string := "https://api19.sapsf.com/odata/v2/".

Section Remote.

(** The numbers and booleans of a JSON document; the code never looks into
    them. *)
Variable json : Type.

(** What [response.json()] returns, and every part of it: [None], a [str],
    a number or boolean, a [list], or a [dict] given by its members in
    document order (each name once). *)
#[warnings="-register-all"]
Inductive jval : Type :=
  | JNull
  | JStr (s : string)
  | JAtom (v : json)
  | JList (items : list jval)
  | JDict (members : list (string * jval)).

(** [json.dumps(line, indent=None)] of a [dict]. *)
Variable json_dumps : list (string * jval) -> string.

(** [int(text)]: [None] when Python raises [ValueError]. *)
Variable py_int : string -> option Z.

(** What [response.json()] does with a body: it raises on a body that is
    not JSON, and returns the parsed value otherwise. *)
Inductive body : Type :=
  | NotJson
  | Json (parsed : jval).

Record response : Type := mk_response {
  text : string;
  json_body : body
}.

Record world : Type := mk_world {
  replies : list response;
  trace : list event
}.

(** A computation on the world: [None] when it asks for a response the
    service has not sent, otherwise a value or a raised exception. *)
Definition io (A : Type) : Type := world -> option (result A * world).

Definition io_ret {A : Type} (a : A) : io A := fun w => Some (Ok a, w).

Definition io_raise {A : Type} (e : exn) : io A := fun w => Some (Raise e, w).

Definition io_bind {A B : Type} (m : io A) (k : A -> io B) : io B :=
  fun w =>
    match m w with
    | None => None
    | Some (Ok a, w') => k a w'
    | Some (Raise e, w') => Some (Raise e, w')
    end.

(** A step that does not touch the world. *)
Definition io_lift {A : Type} (r : result A) : io A := fun w => Some (r, w).

Local Notation "x <- m ;; k" := (io_bind m (fun x => k))
  (at level 65, m at next level, right associativity).
Local Notation "m ;;; k" := (io_bind m (fun _ => k))
  (at level 65, right associativity).

Definition emit (e : event) : io unit :=
  fun w => Some (Ok tt, {| replies := replies w; trace := trace w ++ [e] |}).

(** [requests.get(url=url, auth=...)] *)
Definition requests_get (url : string) : io response :=
  fun w =>
    match replies w with
    | [] => None
    | r :: rest => Some (Ok r, {| replies := rest; trace := trace w ++ [Request url] |})
    end.

(** *** [get_entity_count] *)
Definition get_entity_count (entity : string) : io Z :=
  response <- requests_get (api_root +:+ entity +:+ "/$count") ;;
  (* the try block binds the local [count]; the handler leaves it unbound *)
  count <- match py_int (text response) with
           | Some n => io_ret (Some n)
           | None =>
               emit (PrintExn ValueError) ;;;
               emit (Print (text response)) ;;;
               io_ret None
           end ;;
  (* [return count] *)
  match count with
  | Some n => io_ret n
  | None => io_raise UnboundLocalError
  end.

(** *** Python operations on JSON values *)

(** [v.get(key)] and [v.get(key, None)]: only a [dict] has [get]; a
    missing key gives [None]. *)
Definition dict_get (v : jval) (key : string) : result jval :=
  match v with
  | JDict members => Ok (default JNull (assoc key members))
  | _ => Raise AttributeError
  end.

(** [len(v)]: [None], numbers and booleans have no length. *)
Definition py_len (v : jval) : result nat :=
  match v with
  | JStr s => Ok (String.length s)
  | JList items => Ok (length items)
  | JDict members => Ok (length members)
  | JNull | JAtom _ => Raise TypeError
  end.

(** [for line in v]: a [list] gives its items, a [str] its characters, a
    [dict] its keys; [None], numbers and booleans are not iterable. *)
Definition jval_iter (v : jval) : result (list jval) :=
  match v with
  | JList items => Ok items
  | JStr s => Ok (map JStr (chars s))
  | JDict members => Ok (map (fun kv => JStr kv.1) members)
  | JNull | JAtom _ => Raise TypeError
  end.

(** *** [get_next_page_url] *)
Definition get_next_page_url (page : jval) : result jval :=
  match page with
  | JDict members =>
      if decide ("__next" ∉ map fst members) then Ok JNull
      else dict_get page "__next"
  | _ => Raise AttributeError
  end.

(** *** [make_odata_request]

    The [url] is whatever the caller passes: after the first pass of the
    loop it is the [__next] value of the page before.  [requests.get]
    turns down a [url] that is not a text before anything is sent, with
    one of its [RequestException]s ([MissingSchema], [InvalidSchema],
    [InvalidURL]). *)
Definition make_odata_request (url : jval) : io jval :=
  match url with
  | JStr address =>
      response <- requests_get address ;;
      match json_body response with
      | NotJson => io_raise ValueError
      | Json json_response =>
          data <- io_lift (dict_get json_response "d") ;;
          match data with
          | JNull => io_raise (Exception (text response))
          | _ => io_ret data
          end
      end
  | _ => io_raise RequestException
  end.

(** *** [store_data] *)

(** [line.pop(key)] on a [dict]: the dict without [key], or [None] for a
    [KeyError]. *)
Fixpoint dict_pop (key : string) (line : list (string * jval))
  : option (list (string * jval)) :=
  match line with
  | [] => None
  | (k, v) :: rest =>
      if decide (k = key) then Some rest
      else rest' ← dict_pop key rest; Some ((k, v) :: rest')
  end.

(** [line.pop('__metadata')]: [list.pop] wants an index; a [str], [None],
    a number or a boolean has no [pop]. *)
Definition line_pop (line : jval) : result (list (string * jval)) :=
  match line with
  | JDict members =>
      match dict_pop "__metadata" members with
      | Some rest => Ok rest
      | None => Raise KeyError
      end
  | JList _ => Raise TypeError
  | JNull | JStr _ | JAtom _ => Raise AttributeError
  end.

(** The text written by the [for line in data] loop and the exception
    that stopped it, if any. *)
Fixpoint dump_lines (data : list jval) : string * option exn :=
  match data with
  | [] => ("", None)
  | line :: rest =>
      match line_pop line with
      | Raise e => ("", Some e)
      | Ok line' =>
          let '(written, stopped) := dump_lines rest in
          (json_dumps line' +:+ nl +:+ written, stopped)
      end
  end.

Definition data_path (entity : string) (page_number : nat) : string :=
  "./data/" +:+ entity +:+ "_data_" +:+ str_of_nat page_number +:+ ".json".

(** The file is opened before [data] is looked at, so it exists, with what
    was written so far, also when the loop raises. *)
Definition store_data (entity : string) (data : jval) (page_number : nat) : io unit :=
  match jval_iter data with
  | Raise e =>
      emit (WriteFile (data_path entity page_number) "") ;;;
      io_raise e
  | Ok lines =>
      let '(written, stopped) := dump_lines lines in
      emit (WriteFile (data_path entity page_number) written) ;;;
      match stopped with
      | None => io_ret tt
      | Some e => io_raise e
      end
  end.

(** *** [get_entity_data] *)

(** One pass through the body of [while next_page is not None]; the value
    is the new [next_page]. *)
Definition fetch_page (entity : string) (url : jval) (page_number : nat) : io jval :=
  response <- make_odata_request url ;;
  results <- io_lift (dict_get response "results") ;;
  rows <- io_lift (py_len results) ;;
  emit (Print ("Iterating page: " +:+ str_of_nat page_number +:+ ". Rows: " +:+
               str_of_nat rows)) ;;;
  store_data entity results page_number ;;;
  io_lift (get_next_page_url response).

(** The [while] loop.  [n] bounds the passes: a pass that is followed by
    another one has consumed a response, so one pass more than there are
    responses to come decides every run. *)
Fixpoint follow_pages (n : nat) (entity : string) (url : jval) (page_number : nat)
  : io unit :=
  match n with
  | O => fun _ => None
  | S n' =>
      next_page <- fetch_page entity url page_number ;;
      match next_page with
      | JNull => io_ret tt
      | _ => follow_pages n' entity next_page (S page_number)
      end
  end.

Definition data_url (metadata : entity_dict) : string :=
  api_root +:+ name metadata +:+ "?$select=" +:+ join "," (map f_name (fields metadata)) +:+
  "&paging=snapshot&$format=json".

Definition get_entity_data (metadata : entity_dict) : io unit :=
  entity_row_count <- get_entity_count (name metadata) ;;
  emit (Print ("Processing " +:+ str_of_Z entity_row_count +:+ " rows from entity: " +:+
               name metadata)) ;;;
  fun w =>
    follow_pages (S (length (replies w))) (name metadata) (JStr (data_url metadata)) 0 w.

End Remote.

Arguments JNull {json}.
Arguments JStr {json} s.
Arguments JAtom {json} v.
Arguments JList {json} items.
Arguments JDict {json} members.
Arguments NotJson {json}.
Arguments Json {json} parsed.
Arguments mk_response {json} text json_body.
Arguments text {json} r.
Arguments json_body {json} r.
Arguments mk_world {json} replies trace.
Arguments replies {json} w.
Arguments trace {json} w.
Arguments io_ret {json A} a _.
Arguments io_raise {json A} e _.
Arguments io_bind {json A B} m k _.
Arguments io_lift {json A} r _.
Arguments emit {json} e _.
Arguments requests_get {json} url _.
Arguments get_entity_count {json} py_int entity _.
Arguments dict_get {json} v key.
Arguments py_len {json} v.
Arguments jval_iter {json} v.
Arguments get_next_page_url {json} page.
Arguments make_odata_request {json} url _.
Arguments dict_pop {json} key line.
Arguments line_pop {json} line.
Arguments dump_lines {json} json_dumps data.
Arguments store_data {json} json_dumps entity data page_number _.
Arguments fetch_page {json} json_dumps entity url page_number _.
Arguments follow_pages {json} json_dumps n entity url page_number _.
Arguments get_entity_data {json} json_dumps py_int metadata _.

(** *** Data pages, and what a run of the loop over them leaves behind

    A page is the [d] object of a response, given by its members. *)

Section PaginationTrace.

Context {json : Type}.
Variable json_dumps : list (string * jval json) -> string.












End PaginationTrace.

(** ** ingest.py: the synthesis steps of the main block

    The statements of [__main__] that read [parsed_metadata], in program
    order: final DDL, refined DDL, raw DDL (which rewrites the descriptor),
    load-job schema, merge query.  The descriptor is threaded through as the
    one object all of them share; the network, storage and warehouse calls
    in between do not touch it. *)

Record artifacts : Type := mk_artifacts {
  final_table_id : string;
  final_ddl : string;
  rf_table_id : string;
  refined_ddl : string;
  temp_table_id : string;
  raw_ddl : string;
  load_schema : list schema_field;
  merge_query : string
}.

Section Run.

Variable py_repr : xml -> string.
Variable str_lower : string -> string.
Variable str_strip : string -> string.
Variable sqlparse_format : string -> string.

(** [project] is [PROJECT_ID], [rf_project] is [RF_PROJECT_ID].  The result
    is the descriptor as the run leaves it and what the steps produced, or
    the exception that stopped the run. *)
Definition synthesis_steps (project rf_project : option string)
    (parsed_metadata : entity_dict) : entity_dict * result artifacts :=
  match create_bq_final_table py_repr str_lower str_strip project parsed_metadata with
  | Raise e => (parsed_metadata, Raise e)
  | Ok (final_id, fddl) =>
      match create_bq_refined_table py_repr str_lower str_strip rf_project
              parsed_metadata with
      | Raise e => (parsed_metadata, Raise e)
      | Ok (rf_id, rddl) =>
          let '(parsed_metadata', raw) :=
            create_bq_raw_table str_lower str_strip project parsed_metadata in
          match raw with
          | Raise e => (parsed_metadata', Raise e)
          | Ok (temp_id, rawddl) =>
              let schema := load_job_schema parsed_metadata' in
              match create_merge_query sqlparse_format parsed_metadata' final_id rf_id with
              | Raise e => (parsed_metadata', Raise e)
              | Ok merge =>
                  (parsed_metadata',
                   Ok {| final_table_id := final_id;
                         final_ddl := fddl;
                         rf_table_id := rf_id;
                         refined_ddl := rddl;
                         temp_table_id := temp_id;
                         raw_ddl := rawddl;
                         load_schema := schema;
                         merge_query := merge |})
              end
          end
      end
  end.

End Run.

(** ** Text occurrence *)

(** [w] occurs in [s] as a contiguous piece. *)
Definition occurs (w s : string) : Prop :=
  exists a b, s = a +:+ w +:+ b.

(** [s.startswith(w)] *)
Fixpoint starts_with (w s : string) : bool :=
  match w, s with
  | EmptyString, _ => true
  | String c w', String d s' => if decide (c = d) then starts_with w' s' else false
  | String _ _, EmptyString => false
  end.

(** [w in s] *)
Fixpoint contains (w s : string) : bool :=
  starts_with w s ||
  match s with
  | EmptyString => false
  | String _ s' => contains w s'
  end.

(** The last character of a text, if any. *)
Fixpoint last_char (s : string) : option ascii :=
  match s with
  | EmptyString => None
  | String c EmptyString => Some c
  | String _ rest => last_char rest
  end.

(** A SELECT-list line that names its output column [column]: a bare
    reference to the column, or an expression followed by [AS column]. *)
Definition aliased_to (column line : string) : Prop :=
  line = tab +:+ column \/ exists expr, line = tab +:+ expr +:+ " AS " +:+ column.

(** [c in w] for a single character. *)
Fixpoint has_char (c : ascii) (w : string) : bool :=
  match w with
  | EmptyString => false
  | String d w' => if decide (c = d) then true else has_char c w'
  end.

(** The projection [PropertyRef] of a metadata document. *)
Definition property_ref (metadata : xml) : result xml :=
  fields_schema ← schema_at metadata 1%nat;
  key_property_ref fields_schema.

(** The tag collection of a metadata document. *)
Definition tag_collection (metadata : xml) : result xml :=
  doc_schema ← schema_at metadata 0%nat;
  container ← subscript doc_schema "EntityContainer";
  entity_set ← subscript container "EntitySet";
  documentation ← subscript entity_set "Documentation";
  documentation_tags documentation.

(** ** Sample inputs *)

Definition sample_property (pname ptype nullable visible label : string) : xml :=
  XDict [("@Name", pname); ("@Type", ptype); ("@Nullable", nullable);
         ("@sap:visible", visible); ("@sap:label", label)] [].

(** An EDMX envelope with the given [PropertyRef], [Property] and
    [sap:tag] projections. *)
Definition sample_document (pref props tags : xml) : xml :=
  XDict [] [("edmx:Edmx", XDict [] [("edmx:DataServices", XDict [] [("Schema",
    XList [
      XDict [] [("EntityContainer", XDict [] [("EntitySet", XDict [] [("Documentation",
        XDict [] [("LongDescription", XStr "Employee job information");
                  ("sap:tagcollection", XDict [] [("sap:tag", tags)])])])])];
      XDict [] [("EntityType", XDict [("@Name", "EmpJob")]
                   [("Key", XDict [] [("PropertyRef", pref)]);
                    ("Property", props)])]])])])].

Definition sample_properties : xml :=
  XList [sample_property "personIdExternal" "Edm.String" "false" "true" "Person Id";
         sample_property "lastModifiedDateTime" "Edm.DateTime" "true" "true" "Last Modified";
         sample_property "isActive" "Edm.Boolean" "true" "true" "Active";
         sample_property "internalCode" "Edm.Int32" "true" "false" "Hidden"].

Definition sample_tags : xml :=
  XList [XStr "Employee Central (EC)"; XStr "Recommended"].

(** One key, serialized as a single node. *)
Definition sample_single_key : xml :=
  sample_document (XDict [("@Name", "personIdExternal")] []) sample_properties sample_tags.

(** Two keys, serialized as a list of nodes. *)
Definition sample_two_keys : xml :=
  sample_document
    (XList [XDict [("@Name", "personIdExternal")] [];
            XDict [("@Name", "lastModifiedDateTime")] []])
    sample_properties sample_tags.

(** A property whose type is outside the table. *)
Definition sample_unmapped : xml :=
  sample_document (XDict [("@Name", "photoId")] [])
    (XList [sample_property "photoId" "Edm.Int64" "false" "true" "Photo Id";
            sample_property "photo" "Edm.Stream" "true" "true" "Photo"])
    sample_tags.

(** A tag collection that is neither a list nor a string. *)
Definition sample_no_module : xml :=
  sample_document (XDict [("@Name", "personIdExternal")] []) sample_properties XNone.

(** The descriptor the parser returns for [sample_single_key]. *)
Definition sample_descriptor : entity_dict :=
  {| name := "EmpJob";
     keys := ["personIdExternal"];
     fields :=
       [mk_field "personIdExternal" (Some "STRING") "NOT NULL" "Person Id.";
        mk_field "lastModifiedDateTime" (Some "DATETIME") "" "Last Modified.";
        mk_field "isActive" (Some "BOOL") "" "Active."];
     module := XStr "Employee Central (EC)";
     description := XStr "Employee job information" |}.

(** The descriptor the parser returns for [sample_two_keys]. *)
Definition sample_descriptor_two_keys : entity_dict :=
  {| name := "EmpJob";
     keys := ["personIdExternal"; "lastModifiedDateTime"];
     fields := fields sample_descriptor;
     module := XStr "Employee Central (EC)";
     description := XStr "Employee job information" |}.

(** A second schema section holding only the key projection [pref]. *)
Definition sample_key_schema (pref : xml) : xml :=
  XDict [] [("EntityType", XDict [("@Name", "EmpJob")]
               [("Key", XDict [] [("PropertyRef", pref)])])].

(** A final schema with a BYTES column and the staging schema loaded for it. *)
Definition sample_final_schema : list schema_field :=
  [SchemaField "personIdExternal" "STRING";
   SchemaField "photo" "BYTES";
   SchemaField "seqNumber" "INTEGER"].

Definition sample_raw_schema : list schema_field :=
  [SchemaField "personIdExternal" "STRING";
   SchemaField "photo" "STRING";
   SchemaField "seqNumber" "STRING"].

(** A stand-in for [int] on texts: ASCII digits only. *)
Definition digit_value (c : ascii) : option Z :=
  let n := nat_of_ascii c in
  if (48 <=? n)%nat && (n <=? 57)%nat then Some (Z.of_nat (n - 48)) else None.

Fixpoint parse_digits (acc : Z) (s : string) : option Z :=
  match s with
  | EmptyString => Some acc
  | String c rest =>
      match digit_value c with
      | Some d => parse_digits (10 * acc + d) rest
      | None => None
      end
  end.

Definition sample_int (s : string) : option Z :=
  match s with
  | EmptyString => None
  | _ => parse_digits 0 s
  end.

(** A stand-in for [json.dumps] on rows; numbers and booleans are given by
    their text. *)
Definition sample_dumps (line : list (string * jval string)) : string :=
  "{" +:+
  join ", " (map (fun kv => kv.1 +:+ ": " +:+
                            match kv.2 with
                            | JNull => "null"
                            | JStr s => s
                            | JAtom v => v
                            | JList _ => "[...]"
                            | JDict _ => "{...}"
                            end) line) +:+
  "}".

Definition sample_next_url : string :=
  "https://api19.sapsf.com/odata/v2/EmpJob?$skiptoken=eyJzdGFydFJvdyI6MTAwMH0".

Definition sample_row (person : string) : jval string :=
  JDict [("__metadata", JStr ("{uri: EmpJob(" +:+ person +:+ ")}"));
         ("personIdExternal", JStr person)].

(** A page of two rows that links on. *)
Definition sample_page_0 : list (string * jval string) :=
  [("results", JList [sample_row "1"; sample_row "2"]);
   ("__next", JStr sample_next_url)].

(** A page of one row without [__next]. *)
Definition sample_page_1 : list (string * jval string) :=
  [("results", JList [sample_row "3"])].



(** The response whose body is [{"d": page}]. *)
Definition sample_page_response (body_text : string) (page : list (string * jval string))
  : response string :=
  mk_response body_text (Json (JDict [("d", JDict page)])).

Definition sample_count_response : response string :=
  mk_response "3" NotJson.

Definition sample_error_response : response string :=
  mk_response "<error>Entity not found</error>" NotJson.

Definition sample_replies : list (response string) :=
  [sample_count_response;
   sample_page_response "{d: page 0}" sample_page_0;
   sample_page_response "{d: page 1}" sample_page_1;
   sample_page_response "{d: page 0}" sample_page_0].

(** ** ingest.py: [get_entity_metadata] *)

Section RemoteMetadata.

Context {json : Type}.

(** [xmltodict.parse(text)]: the parsed document, or the exception the
    parser raises on a body that is not well-formed XML. *)
Variable xml_parse : string -> result xml.

Definition get_entity_metadata (entity : string) : io json xml :=
  io_bind (requests_get (api_root +:+ entity +:+ "/$metadata")) (fun response =>
  (* the try block binds the local [data_dict]; the handler leaves it unbound *)
  io_bind (match xml_parse (text response) with
           | Ok parsed => io_ret (Some parsed)
           | Raise e =>
               io_bind (emit (PrintExn e)) (fun _ =>
               io_bind (emit (Print (text response))) (fun _ =>
               io_ret None))
           end) (fun data_dict =>
  (* [return data_dict] *)
  match data_dict with
  | Some parsed => io_ret parsed
  | None => io_raise UnboundLocalError
  end)).

End RemoteMetadata.

(** The [Property] projection of a metadata document. *)
Definition property_list (metadata : xml) : result xml :=
  fields_schema ← schema_at metadata 1%nat;
  entity_type ← subscript fields_schema "EntityType";
  subscript entity_type "Property".

(** ** ssff_utils.py: the pipeline description *)

(** A value of the pipeline type table: a scalar name, or a dict with
    ['type'], ['logicalType'] and further integer entries. *)
Inductive pipeline_type : Type :=
  | Scalar (type_name : string)
  | Logical (base logical_type : string) (params : list (string * Z)).

Definition pipeline_type_mapping : gmap string pipeline_type :=
  list_to_map [
    ("Edm.SByte", Scalar "int");
    ("Edm.Byte", Scalar "bytes");
    ("Edm.Int16", Scalar "int");
    ("Edm.Int32", Scalar "int");
    ("Edm.Int64", Scalar "long");
    ("Edm.Double", Scalar "double");
    ("Edm.Float", Scalar "float");
    ("Edm.Decimal", Logical "bytes" "decimal" [("precision", 15); ("scale", 2)]);
    ("Edm.String", Scalar "string");
    ("Edm.Binary", Scalar "bytes");
    ("Edm.Boolean", Scalar "boolean");
    ("Edm.DateTime", Logical "string" "datetime" []);
    ("Edm.Time", Logical "long" "time-micros" []);
    ("Edm.DateTimeOffset", Logical "long" "timestamp-micros" [])
  ].

Record formatted_field : Type := mk_formatted_field {
  ff_name : string;
  ff_type : string;
  ff_nullable : bool
}.

Record formatted_metadata : Type := mk_formatted {
  fm_name : string;
  fm_keys : list string;
  fm_fields : list formatted_field
}.

(** One step of the [fields] comprehension of [format_metadata]. *)
Definition formatted_entity_field (field : xml) : result (option formatted_field) :=
  visible ← subscript_attr field "@sap:visible";
  if decide (visible = "true") then
    fname ← subscript_attr field "@Name";
    ftype ← subscript_attr field "@Type";
    nullable ← subscript_attr field "@Nullable";
    Ok (Some {| ff_name := fname;
                ff_type := ftype;
                ff_nullable := bool_decide (nullable = "true") |})
  else Ok None.

Definition kept_formatted (built : list (option formatted_field)) : list formatted_field :=
  omap id built.

(** [format_metadata] *)
Definition format_metadata (metadata : xml) : result formatted_metadata :=
  fields_schema ← schema_at metadata 1%nat;
  entity_type ← subscript fields_schema "EntityType";
  ename ← subscript_attr entity_type "@Name";
  ekeys ← entity_keys fields_schema;
  entity_type' ← subscript fields_schema "EntityType";
  props ← subscript entity_type' "Property";
  items ← py_iter props;
  built ← mapM formatted_entity_field items;
  Ok {| fm_name := ename; fm_keys := ekeys; fm_fields := kept_formatted built |}.

(** [s.replace(old, new)] for a non-empty [old]: the occurrences are taken
    left to right and do not overlap.  [skip] counts the characters of a
    matched occurrence that are still to be dropped. *)
Fixpoint replace_from (old new : string) (skip : nat) (s : string) : string :=
  match s with
  | EmptyString => EmptyString
  | String c rest =>
      match skip with
      | S k => replace_from old new k rest
      | O =>
          if starts_with old s
          then new +:+ replace_from old new (String.length old - 1) rest
          else String c (replace_from old new 0 rest)
      end
  end.

Definition str_replace (old new s : string) : string := replace_from old new 0 s.

Definition base_filter : string :=
  "lastModifiedDateTime ge datetime'${logicalStartTime(yyyy-MM-dd,1d)}T00:00:00' and " +:+
  "lastModifiedDateTime le datetime'${logicalStartTime(yyyy-MM-dd'T'HH:mm:ss)}'".

(** [get_filter] *)
Definition get_filter (field_list : list formatted_field) : string :=
  if decide ("lastModifiedDateTime" ∈ map ff_name field_list) then base_filter
  else str_replace "lastModifiedDateTime" "lastModifiedOn" base_filter.

(** [get_upsert_keys]: [entity_keys] is the caller's list itself, so the
    [append] changes it; the function gives back that list as it is left
    next to the joined text. *)
Definition get_upsert_keys (key_list : list string) : list string * string :=
  let datetime_key :=
    if decide ("lastModifiedDateTime" ∈ key_list) then "lastModifiedDateTime"
    else "lastModifiedOn" in
  let entity_keys := key_list ++ [datetime_key] in
  (entity_keys, join "," entity_keys).

(** [get_select_fields] *)
Definition get_select_fields (field_list : list formatted_field) : string :=
  join "," (map ff_name field_list).

(** An entry of [json_fields]: the name and the ['type'] member, which is
    the looked-up type or its two-element list with ['null']. *)
Inductive json_field_type : Type :=
  | Plain (mapped : option pipeline_type)
  | WithNull (mapped : option pipeline_type).

Record json_field : Type := mk_json_field {
  jf_name : string;
  jf_type : json_field_type
}.

(** The body of the [for field in metadata_fields] loop of
    [build_ssff_json_pipeline]. *)
Definition json_field_of (field : formatted_field) : json_field :=
  if ff_nullable field
  then {| jf_name := ff_name field;
          jf_type := WithNull (pipeline_type_mapping !! ff_type field) |}
  else {| jf_name := ff_name field;
          jf_type := Plain (pipeline_type_mapping !! ff_type field) |}.

(** What [build_ssff_json_pipeline] computes from the metadata and writes
    into the pipeline template: the schema fields, the pipeline name, the
    entity, the filter, the selected columns and the upsert keys. *)
Record pipeline_values : Type := mk_pipeline_values {
  pv_json_fields : list json_field;
  pv_name : string;
  pv_entity : string;
  pv_filter_option : string;
  pv_select_option : string;
  pv_relation_table_key : string
}.

Definition build_ssff_json_pipeline_values (metadata : xml) : result pipeline_values :=
  formatted ← format_metadata metadata;
  Ok {| pv_json_fields := map json_field_of (fm_fields formatted);
        pv_name := fm_name formatted +:+ "_SuccessFactors";
        pv_entity := fm_name formatted;
        pv_filter_option := get_filter (fm_fields formatted);
        pv_select_option := get_select_fields (fm_fields formatted);
        pv_relation_table_key := (get_upsert_keys (fm_keys formatted)).2 |}.

(** A document whose entity has exactly one property: [Property] is a
    single node, not a list. *)
Definition sample_single_property : xml :=
  sample_document (XDict [("@Name", "userId")] [])
    (sample_property "userId" "Edm.String" "false" "true" "User Id") sample_tags.

(** The test [field['@sap:visible'] == 'true'] of the two [fields]
    comprehensions, on a node that has the attribute. *)
Definition is_visible (field : xml) : bool :=
  match subscript_attr field "@sap:visible" with
  | Ok visible => bool_decide (visible = "true")
  | Raise _ => false
  end.

(** * Properties *)

(** ** Generic facts *)

Lemma bind_Ok {A B : Type} (m : result A) (k : A -> result B) (b : B) :
  m ≫= k = Ok b -> exists a, m = Ok a /\ k a = Ok b.
Proof.
  destruct m as [a|e]; simpl; intros H.
  - exists a. split; [reflexivity | exact H].
  - discriminate H.
Qed.

Ltac inv_bind H :=
  let a := fresh "v" in
  let Ha := fresh "Hv" in
  apply bind_Ok in H; destruct H as (a & Ha & H).

Lemma mapM_Forall2 {A B : Type} (f : A -> result B) (l : list A) (l' : list B) :
  mapM f l = Ok l' <-> Forall2 (fun x y => f x = Ok y) l l'.
Proof.
  revert l'. induction l as [|x l IH]; intros l'; simpl.
  - split.
    + intros [= <-]. constructor.
    + intros H. inversion H. reflexivity.
  - split.
    + intros H. inv_bind H. inv_bind H. injection H as <-.
      constructor; [assumption | apply IH; assumption].
    + intros H. inversion H as [|? y ? ys Hx Hl]; subst.
      rewrite Hx. simpl. apply IH in Hl. rewrite Hl. reflexivity.
Qed.

(** ** The type table and the metadata parser *)

Lemma subscript_attr_dict (attrs : list (string * string)) (elems : list (string * xml))
    (k v : string) :
  assoc k attrs = Some v -> subscript_attr (XDict attrs elems) k = Ok v.
Proof. intros H. unfold subscript_attr. rewrite H. reflexivity. Qed.

Lemma get_columns_description_Ok (attrs : list (string * string))
    (elems : list (string * xml)) (label : string) :
  assoc "@sap:label" attrs = Some label ->
  exists text, get_columns_description (XDict attrs elems) = Ok text.
Proof.
  intros Hl. unfold get_columns_description, get_attr_truthy, subscript_attr.
  rewrite Hl.
  destruct (assoc "@sap:picklist" attrs) as [pick|] eqn:Hp.
  - destruct (decide (pick = "")); simpl; eauto.
  - simpl. eauto.
Qed.

(** A visible property with its attributes present always yields a field
    descriptor; its type is whatever the table lookup gives. *)
Lemma entity_field_visible (attrs : list (string * string)) (elems : list (string * xml))
    (fname ftype nullable label : string) :
  assoc "@sap:visible" attrs = Some "true" ->
  assoc "@Name" attrs = Some fname ->
  assoc "@Type" attrs = Some ftype ->
  assoc "@Nullable" attrs = Some nullable ->
  assoc "@sap:label" attrs = Some label ->
  exists fd, entity_field (XDict attrs elems) = Ok (Some fd) /\
             f_name fd = fname /\ f_type fd = data_type_mapping !! ftype.
Proof.
  intros Hv Hn Ht Hnu Hl.
  destruct (get_columns_description_Ok attrs elems label Hl) as [text Htext].
  unfold entity_field. rewrite Htext. unfold subscript_attr.
  rewrite Hv, Hn, Ht, Hnu. simpl.
  eexists. split; [reflexivity|]. split; reflexivity.
Qed.

(** C2 (as amended): every OData primitive of the table maps to its
    warehouse type; any other source type is looked up to [None], and the
    field step of the parser still succeeds, handing on a field descriptor
    whose type is [None].  No exception is raised for an unmapped type. *)
Theorem type_mapping_lookup :
  Forall (fun entry => data_type_mapping !! entry.1 = Some entry.2)
    [("Edm.Binary", "BYTES"); ("Edm.Boolean", "BOOL"); ("Edm.DateTime", "DATETIME");
     ("Edm.Time", "TIMESTAMP"); ("Edm.Int64", "INTEGER"); ("Edm.Decimal", "DECIMAL");
     ("Edm.Double", "FLOAT64"); ("Edm.Float", "FLOAT64"); ("Edm.Single", "FLOAT64");
     ("Edm.Int32", "INTEGER"); ("Edm.Byte", "INTEGER"); ("Edm.Int16", "INTEGER");
     ("Edm.SByte", "INTEGER"); ("Edm.DateTimeOffset", "TIMESTAMP");
     ("Edm.Guid", "STRING"); ("Edm.String", "STRING")] /\
  (forall source_type : string,
      source_type ∉ ["Edm.Binary"; "Edm.Boolean"; "Edm.DateTime"; "Edm.Time"; "Edm.Int64";
                     "Edm.Decimal"; "Edm.Double"; "Edm.Float"; "Edm.Single"; "Edm.Int32";
                     "Edm.Byte"; "Edm.Int16"; "Edm.SByte"; "Edm.DateTimeOffset";
                     "Edm.Guid"; "Edm.String"] ->
      data_type_mapping !! source_type = None /\
      forall attrs elems fname nullable label,
        assoc "@sap:visible" attrs = Some "true" ->
        assoc "@Name" attrs = Some fname ->
        assoc "@Type" attrs = Some source_type ->
        assoc "@Nullable" attrs = Some nullable ->
        assoc "@sap:label" attrs = Some label ->
        exists fd, entity_field (XDict attrs elems) = Ok (Some fd) /\
                   f_name fd = fname /\ f_type fd = None).
Proof.
  split.
  - repeat (constructor; [vm_compute; reflexivity|]). constructor.
  - intros source_type Hnot.
    assert (Hnone : data_type_mapping !! source_type = None).
    { unfold data_type_mapping. apply not_elem_of_list_to_map_1. exact Hnot. }
    split; [exact Hnone|].
    intros attrs elems fname nullable label Hv Hn Ht Hnu Hl.
    destruct (entity_field_visible attrs elems fname source_type nullable label
                Hv Hn Ht Hnu Hl) as (fd & Hfd & Hname & Htype).
    exists fd. rewrite Htype, Hnone. auto.
Qed.

Lemma type_mapping_lookup_witness :
  data_type_mapping !! "Edm.Stream" = None /\
  exists fd, entity_field (sample_property "photo" "Edm.Stream" "true" "true" "Photo")
               = Ok (Some fd) /\ f_name fd = "photo" /\ f_type fd = None.
Proof.
  destruct type_mapping_lookup as [_ H].
  destruct (H "Edm.Stream") as [Hnone Hfield].
  - vm_compute. intros Hin.
    repeat (apply elem_of_cons in Hin; destruct Hin as [Hin|Hin]; [discriminate Hin|]).
    apply elem_of_nil in Hin. exact Hin.
  - split; [exact Hnone|].
    apply (Hfield _ [] "photo" "true" "Photo"); reflexivity.
Defined.

(** C2 (as stated) fails: [Edm.Stream] is outside the table, the lookup
    gives [None], and the parser returns a descriptor whose second field has
    type [None] instead of raising; so it is not true that the field step
    fails on every source type outside the table. *)
Lemma unmapped_type_is_none_not_error :
  (data_type_mapping !! "Edm.Stream" = None /\
   exists d, process_metadata sample_unmapped = Ok d /\
             map f_type (fields d) = [Some "INTEGER"; None]) /\
  ~ (forall (field : xml) (source_type : string),
        subscript_attr field "@Type" = Ok source_type ->
        data_type_mapping !! source_type = None ->
        exists e, entity_field field = Raise e).
Proof.
  split.
  - split.
    + vm_compute. reflexivity.
    + eexists. split; vm_compute; reflexivity.
  - intros Hclaim.
    destruct (Hclaim (sample_property "photo" "Edm.Stream" "true" "true" "Photo")
                "Edm.Stream") as [e He].
    + reflexivity.
    + vm_compute. reflexivity.
    + vm_compute in He. discriminate He.
Qed.

Lemma entity_keys_single (fields_schema : xml) (attrs : list (string * string))
    (elems : list (string * xml)) (key_name : string) :
  key_property_ref fields_schema = Ok (XDict attrs elems) ->
  assoc "@Name" attrs = Some key_name ->
  entity_keys fields_schema = Ok [key_name].
Proof.
  intros Hpref Hname. unfold entity_keys. rewrite Hpref. simpl.
  rewrite Hname. reflexivity.
Qed.

Lemma entity_keys_many (fields_schema : xml) (nodes : list xml) (names : list string) :
  key_property_ref fields_schema = Ok (XList nodes) ->
  Forall2 (fun node key_name => subscript_attr node "@Name" = Ok key_name) nodes names ->
  entity_keys fields_schema = Ok names.
Proof.
  intros Hpref Hnames. unfold entity_keys. rewrite Hpref. simpl.
  apply mapM_Forall2. exact Hnames.
Qed.

Lemma process_metadata_parts (metadata : xml) (d : entity_dict) :
  process_metadata metadata = Ok d ->
  exists located tags,
    entity_parts metadata = Ok located /\
    documentation_tags (p_documentation located) = Ok tags /\
    entity_module tags = Ok (module d) /\
    name d = p_name located /\ keys d = p_keys located /\
    fields d = p_fields located /\ description d = p_description located.
Proof.
  intros H. unfold process_metadata in H.
  inv_bind H. inv_bind H. inv_bind H. injection H as <-.
  exists v, v0. simpl. auto 10.
Qed.

Lemma entity_parts_keys (metadata : xml) (located : parts) :
  entity_parts metadata = Ok located ->
  exists fields_schema,
    schema_at metadata 1%nat = Ok fields_schema /\
    entity_keys fields_schema = Ok (p_keys located).
Proof.
  intros H. unfold entity_parts in H.
  do 10 inv_bind H. injection H as <-. simpl.
  eexists. split; eassumption.
Qed.

(** C4: the Key/PropertyRef projection is normalized to a list.  When it is
    a single node with an [@Name], the keys step returns the one-element
    list holding it; when it is a list of [n] nodes with [@Name]s, the keys
    step returns those [n] names in order; and the [keys] of the descriptor
    returned by the parser are the result of that step on the document's
    second schema. *)
Theorem keys_normalized_to_list :
  (forall fields_schema attrs elems key_name,
      key_property_ref fields_schema = Ok (XDict attrs elems) ->
      assoc "@Name" attrs = Some key_name ->
      entity_keys fields_schema = Ok [key_name]) /\
  (forall fields_schema nodes names,
      key_property_ref fields_schema = Ok (XList nodes) ->
      Forall2 (fun node key_name => subscript_attr node "@Name" = Ok key_name) nodes names ->
      entity_keys fields_schema = Ok names /\ length names = length nodes) /\
  (forall metadata d,
      process_metadata metadata = Ok d ->
      exists pref,
        property_ref metadata = Ok pref /\
        match pref with
        | XDict attrs _ => exists key_name,
            assoc "@Name" attrs = Some key_name /\ keys d = [key_name]
        | XList nodes =>
            Forall2 (fun node key_name => subscript_attr node "@Name" = Ok key_name)
              nodes (keys d)
        | _ => True
        end).
Proof.
  split; [|split].
  - intros fields_schema attrs elems key_name. apply entity_keys_single.
  - intros fields_schema nodes names Hpref Hnames. split.
    + eapply entity_keys_many; eassumption.
    + symmetry. eapply Forall2_length. exact Hnames.
  - intros metadata d H.
    apply process_metadata_parts in H.
    destruct H as (located & tags & Hparts & _ & _ & _ & Hkeys & _).
    apply entity_parts_keys in Hparts. destruct Hparts as (fields_schema & Hfs & Hk).
    rewrite <- Hkeys in Hk. unfold property_ref. rewrite Hfs. simpl.
    unfold entity_keys in Hk. inv_bind Hk. exists v. split; [exact Hv|].
    destruct v as [|s|nodes|attrs elems]; [exact I | exact I | |].
    + rewrite Hv in Hk. simpl in Hk. apply mapM_Forall2 in Hk. exact Hk.
    + rewrite Hv in Hk. simpl in Hk. unfold subscript_attr in Hk.
      destruct (assoc "@Name" attrs) as [key_name|]; [|discriminate Hk].
      simpl in Hk. injection Hk as <-. exists key_name. auto.
Qed.

Lemma keys_normalized_to_list_witness :
  entity_keys (sample_key_schema (XDict [("@Name", "userId")] [])) = Ok ["userId"] /\
  (entity_keys (sample_key_schema
                  (XList [XDict [("@Name", "userId")] []; XDict [("@Name", "startDate")] []]))
     = Ok ["userId"; "startDate"] /\
   length ["userId"; "startDate"] = 2%nat) /\
  (exists pref,
      property_ref sample_single_key = Ok pref /\
      match pref with
      | XDict attrs _ => exists key_name,
          assoc "@Name" attrs = Some key_name /\ keys sample_descriptor = [key_name]
      | XList nodes =>
          Forall2 (fun node key_name => subscript_attr node "@Name" = Ok key_name)
            nodes (keys sample_descriptor)
      | _ => True
      end) /\
  (exists pref,
      property_ref sample_two_keys = Ok pref /\
      match pref with
      | XDict attrs _ => exists key_name,
          assoc "@Name" attrs = Some key_name /\ keys sample_descriptor_two_keys = [key_name]
      | XList nodes =>
          Forall2 (fun node key_name => subscript_attr node "@Name" = Ok key_name)
            nodes (keys sample_descriptor_two_keys)
      | _ => True
      end).
Proof.
  destruct keys_normalized_to_list as (Hsingle & Hmany & Hdoc).
  split; [|split; [|split]].
  - apply (Hsingle _ [("@Name", "userId")] []); reflexivity.
  - apply (Hmany _ [XDict [("@Name", "userId")] []; XDict [("@Name", "startDate")] []]).
    + reflexivity.
    + repeat constructor.
  - apply (Hdoc sample_single_key sample_descriptor). vm_compute. reflexivity.
  - apply (Hdoc sample_two_keys sample_descriptor_two_keys). vm_compute. reflexivity.
Defined.

(** C6: the module indicator taken from the tag collection.  A sequence
    gives its first element, a single string gives that string, and anything
    else makes the parser fail with the exception it raises for a module that
    cannot be found, [Exception('Could not extract SSFF module name from the
    metadata')]; the parser's outcome at this step is exactly the outcome of
    that case analysis on the document's tag collection. *)
Theorem module_from_tag_collection :
  (forall first rest, entity_module (XList (first :: rest)) = Ok first) /\
  (forall s, entity_module (XStr s) = Ok (XStr s)) /\
  (forall tags,
      (forall items, tags <> XList items) -> (forall s, tags <> XStr s) ->
      entity_module tags = Raise (Exception module_error)) /\
  (forall metadata located tags,
      entity_parts metadata = Ok located ->
      documentation_tags (p_documentation located) = Ok tags ->
      tag_collection metadata = Ok tags /\
      process_metadata metadata =
        match entity_module tags with
        | Ok emodule =>
            Ok {| name := p_name located;
                  keys := p_keys located;
                  fields := p_fields located;
                  module := emodule;
                  description := p_description located |}
        | Raise e => Raise e
        end).
Proof.
  split; [|split; [|split]].
  - intros first rest. reflexivity.
  - intros s. reflexivity.
  - intros tags Hlist Hstr. destruct tags as [|s|items|attrs elems]; simpl.
    + reflexivity.
    + exfalso. apply (Hstr s). reflexivity.
    + exfalso. apply (Hlist items). reflexivity.
    + reflexivity.
  - intros metadata located tags Hparts Htags. split.
    + unfold entity_parts in Hparts. do 10 inv_bind Hparts.
      injection Hparts as <-. simpl in Htags.
      unfold tag_collection. rewrite Hv. simpl. rewrite Hv1. simpl.
      rewrite Hv2. simpl. rewrite Hv3. simpl. exact Htags.
    + unfold process_metadata. rewrite Hparts. simpl. rewrite Htags. simpl.
      destruct (entity_module tags); reflexivity.
Qed.

Lemma module_from_tag_collection_witness :
  (tag_collection sample_single_key = Ok sample_tags /\
   process_metadata sample_single_key = Ok sample_descriptor) /\
  entity_module XNone = Raise (Exception module_error) /\
  (tag_collection sample_no_module = Ok XNone /\
   process_metadata sample_no_module = Raise (Exception module_error)).
Proof.
  destruct module_from_tag_collection as (_ & _ & Hneither & Hdoc).
  split; [|split].
  - apply (Hdoc sample_single_key
             {| p_documentation :=
                  XDict [] [("LongDescription", XStr "Employee job information");
                            ("sap:tagcollection", XDict [] [("sap:tag", sample_tags)])];
                p_name := "EmpJob";
                p_description := XStr "Employee job information";
                p_keys := keys sample_descriptor;
                p_fields := fields sample_descriptor |} sample_tags);
      vm_compute; reflexivity.
  - apply (Hneither XNone); discriminate.
  - apply (Hdoc sample_no_module
             {| p_documentation :=
                  XDict [] [("LongDescription", XStr "Employee job information");
                            ("sap:tagcollection", XDict [] [("sap:tag", XNone)])];
                p_name := "EmpJob";
                p_description := XStr "Employee job information";
                p_keys := keys sample_descriptor;
                p_fields := fields sample_descriptor |} XNone);
      vm_compute; reflexivity.
Defined.

(** ** Text and template facts *)

Lemma append_assoc (s1 s2 s3 : string) : (s1 +:+ s2) +:+ s3 = s1 +:+ s2 +:+ s3.
Proof.
  induction s1 as [|c s1 IH]; [reflexivity|].
  change (String c ((s1 +:+ s2) +:+ s3) = String c (s1 +:+ s2 +:+ s3)).
  rewrite IH. reflexivity.
Qed.

Lemma append_nil_r (s : string) : s +:+ "" = s.
Proof.
  induction s as [|c s IH]; [reflexivity|].
  change (String c (s +:+ "") = String c s). rewrite IH. reflexivity.
Qed.

Lemma append_cons (c : ascii) (s t : string) : String c s +:+ t = String c (s +:+ t).
Proof. reflexivity. Qed.

Lemma append_nil_l (t : string) : "" +:+ t = t.
Proof. reflexivity. Qed.

Lemma format_nil (kwargs : gmap string string) : format [] kwargs = Ok "".
Proof. reflexivity. Qed.

Lemma format_lit (text : string) (rest : list piece) (kwargs : gmap string string)
    (tail : string) :
  format rest kwargs = Ok tail ->
  format (Lit text :: rest) kwargs = Ok (text +:+ tail).
Proof. intros H. simpl. rewrite H. reflexivity. Qed.

Lemma format_hole (key value : string) (rest : list piece) (kwargs : gmap string string)
    (tail : string) :
  kwargs !! key = Some value ->
  format rest kwargs = Ok tail ->
  format (Hole key :: rest) kwargs = Ok (value +:+ tail).
Proof. intros Hk H. simpl. rewrite Hk, H. reflexivity. Qed.

Ltac lookup_kwargs :=
  repeat first
    [ apply lookup_insert_eq
    | apply lookup_singleton_eq
    | rewrite lookup_insert_ne by discriminate ].

Ltac format_steps :=
  repeat first
    [ apply format_nil
    | eapply format_lit
    | eapply format_hole; [lookup_kwargs|] ].

(** ** The MERGE statement *)

Lemma merge_query_text_eq (metadata : entity_dict) (raw_table_id rf_table_id : string) :
  merge_query_text metadata raw_table_id rf_table_id =
  Ok ((nl +:+ sp4 +:+ "MERGE INTO" +:+ nl +:+ sp4) +:+
      rf_table_id +:+
      (" AS target" +:+ nl +:+ sp4 +:+ "USING(" +:+ nl +:+ sp4 +:+ "SELECT" +:+ nl +:+ sp4) +:+
      merge_columns metadata +:+
      (nl +:+ sp4 +:+ "FROM ") +:+
      raw_table_id +:+
      (nl +:+ sp4 +:+
       "WHERE TIMESTAMP_TRUNC(_PARTITIONTIME, DAY) = TIMESTAMP(FORMAT_DATE(" +:+
       dq +:+ "%Y-%m-%d" +:+ dq +:+ ",CURRENT_DATE()))" +:+ nl +:+ sp4 +:+
       ") AS source" +:+ nl +:+ sp4 +:+ "ON ") +:+
      merge_condition metadata +:+
      (nl +:+ sp4 +:+ "WHEN MATCHED" +:+ nl +:+ sp4 +:+ "THEN UPDATE" +:+ nl +:+ sp4 +:+
       "SET" +:+ nl +:+ sp4) +:+
      merge_mapping metadata +:+
      (nl +:+ sp4 +:+ "WHEN NOT MATCHED BY TARGET" +:+ nl +:+ sp4 +:+
       "THEN INSERT(" +:+ nl +:+ sp4) +:+
      merge_columns metadata +:+
      (nl +:+ sp4 +:+ ")" +:+ nl +:+ sp4 +:+ "VALUES(" +:+ nl +:+ sp4) +:+
      merge_columns metadata +:+
      (nl +:+ sp4 +:+ ");" +:+ nl +:+ sp4) +:+ "").
Proof.
  unfold merge_query_text, merge_base_query. format_steps.
Qed.

Lemma create_merge_query_eq (sqlparse_format : string -> string)
    (metadata : entity_dict) (raw_table_id rf_table_id text : string) :
  merge_query_text metadata raw_table_id rf_table_id = Ok text ->
  create_merge_query sqlparse_format metadata raw_table_id rf_table_id
  = Ok (sqlparse_format text).
Proof. intros H. unfold create_merge_query. rewrite H. reflexivity. Qed.

(** C7: the text handed to the pretty-printer has, as its join condition,
    [source.<key>=target.<key>] for every declared key in order, joined by
    [" AND "], and its WHEN NOT MATCHED branch inserts all declared columns,
    with the same column list as VALUES; for keys [id, effectiveDate] the
    condition is [source.id=target.id AND source.effectiveDate=target.effectiveDate]. *)
Theorem merge_condition_and_insert :
  (forall (sqlparse_format : string -> string) (metadata : entity_dict)
          (raw_table_id rf_table_id : string),
      create_merge_query sqlparse_format metadata raw_table_id rf_table_id =
      Ok (sqlparse_format
            ((nl +:+ sp4 +:+ "MERGE INTO" +:+ nl +:+ sp4) +:+
             rf_table_id +:+
             (" AS target" +:+ nl +:+ sp4 +:+ "USING(" +:+ nl +:+ sp4 +:+
              "SELECT" +:+ nl +:+ sp4) +:+
             join ", " (map f_name (fields metadata)) +:+
             (nl +:+ sp4 +:+ "FROM ") +:+
             raw_table_id +:+
             (nl +:+ sp4 +:+
              "WHERE TIMESTAMP_TRUNC(_PARTITIONTIME, DAY) = TIMESTAMP(FORMAT_DATE(" +:+
              dq +:+ "%Y-%m-%d" +:+ dq +:+ ",CURRENT_DATE()))" +:+ nl +:+ sp4 +:+
              ") AS source" +:+ nl +:+ sp4 +:+ "ON ") +:+
             join " AND "
               (map (fun key => "source." +:+ key +:+ "=target." +:+ key) (keys metadata)) +:+
             (nl +:+ sp4 +:+ "WHEN MATCHED" +:+ nl +:+ sp4 +:+ "THEN UPDATE" +:+ nl +:+ sp4 +:+
              "SET" +:+ nl +:+ sp4) +:+
             merge_mapping metadata +:+
             (nl +:+ sp4 +:+ "WHEN NOT MATCHED BY TARGET" +:+ nl +:+ sp4 +:+
              "THEN INSERT(" +:+ nl +:+ sp4) +:+
             join ", " (map f_name (fields metadata)) +:+
             (nl +:+ sp4 +:+ ")" +:+ nl +:+ sp4 +:+ "VALUES(" +:+ nl +:+ sp4) +:+
             join ", " (map f_name (fields metadata)) +:+
             (nl +:+ sp4 +:+ ");" +:+ nl +:+ sp4)))) /\
  (forall (entity : string) (field_list : list field_dict) (module_tag descr : xml),
      merge_condition
        {| name := entity; keys := ["id"; "effectiveDate"]; fields := field_list;
           module := module_tag; description := descr |}
      = "source.id=target.id AND source.effectiveDate=target.effectiveDate").
Proof.
  split.
  - intros sqlparse_format metadata raw_table_id rf_table_id.
    apply create_merge_query_eq.
    rewrite merge_query_text_eq. rewrite append_nil_r. reflexivity.
  - intros. reflexivity.
Qed.

Lemma append_regroup8 (a b c d e f g h r : string) :
  a +:+ b +:+ c +:+ d +:+ e +:+ f +:+ g +:+ h +:+ r =
  (a +:+ b +:+ c +:+ d +:+ e +:+ f +:+ g +:+ h) +:+ r.
Proof. repeat rewrite append_assoc. reflexivity. Qed.

(** C1 (as amended): the WHEN MATCHED action assigns every declared column,
    key columns included.  The UPDATE SET list of the text handed to the
    pretty-printer is [target.<name>=source.<name>] for each field in
    declared order, joined by [", "]. *)
Theorem merge_update_sets_every_column (sqlparse_format : string -> string)
    (metadata : entity_dict) (raw_table_id rf_table_id : string) :
  (exists pre post,
      create_merge_query sqlparse_format metadata raw_table_id rf_table_id =
      Ok (sqlparse_format
            (pre +:+
             (nl +:+ sp4 +:+ "WHEN MATCHED" +:+ nl +:+ sp4 +:+ "THEN UPDATE" +:+ nl +:+ sp4 +:+
              "SET" +:+ nl +:+ sp4) +:+
             join ", " (mapping_items metadata) +:+
             (nl +:+ sp4 +:+ "WHEN NOT MATCHED BY TARGET" +:+ nl +:+ sp4 +:+
              "THEN INSERT(" +:+ nl +:+ sp4) +:+
             post))) /\
  mapping_items metadata =
    map (fun field => "target." +:+ f_name field +:+ "=source." +:+ f_name field)
        (fields metadata) /\
  (forall field, field ∈ fields metadata ->
      ("target." +:+ f_name field +:+ "=source." +:+ f_name field) ∈ mapping_items metadata).
Proof.
  assert (Hitems : mapping_items metadata =
    map (fun field => "target." +:+ f_name field +:+ "=source." +:+ f_name field)
        (fields metadata)).
  { unfold mapping_items, column_names. rewrite map_map. reflexivity. }
  split; [|split].
  - eexists _, _. apply create_merge_query_eq.
    rewrite merge_query_text_eq. unfold merge_mapping.
    f_equal. apply append_regroup8.
  - exact Hitems.
  - intros field Hin. rewrite Hitems.
    apply (list_elem_of_fmap_2
             (fun field => "target." +:+ f_name field +:+ "=source." +:+ f_name field)).
    exact Hin.
Qed.

(** C1 (as stated) fails: [personIdExternal] is the key of the sample
    descriptor and the UPDATE SET list assigns it, so it is not true that no
    key field appears there. *)
Lemma merge_updates_key_column :
  (keys sample_descriptor = ["personIdExternal"] /\
   merge_mapping sample_descriptor =
     "target.personIdExternal=source.personIdExternal, " +:+
     "target.lastModifiedDateTime=source.lastModifiedDateTime, " +:+
     "target.isActive=source.isActive") /\
  ~ (forall metadata : entity_dict,
        keys metadata <> [] -> fields metadata <> [] ->
        forall key, key ∈ keys metadata ->
                    ("target." +:+ key +:+ "=source." +:+ key) ∉ mapping_items metadata).
Proof.
  split; [split; reflexivity|].
  intros Hclaim.
  apply (Hclaim sample_descriptor) with (key := "personIdExternal").
  - discriminate.
  - discriminate.
  - apply list_elem_of_here.
  - apply list_elem_of_here.
Qed.

Lemma merge_update_sets_every_column_witness :
  "target.personIdExternal=source.personIdExternal" ∈ mapping_items sample_descriptor.
Proof.
  destruct (merge_update_sets_every_column (fun text => text) sample_descriptor
              "raw" "refined") as (_ & _ & Hall).
  apply (Hall (mk_field "personIdExternal" (Some "STRING") "NOT NULL" "Person Id.")).
  apply list_elem_of_here.
Defined.

(** ** The INSERT ... SELECT statement *)

Lemma conversion_lookup_cases (t : string) :
  (t = "STRING" \/ t = "DATETIME" \/ t = "TIMESTAMP" \/ t = "FLOAT" \/ t = "BYTES") \/
  data_type_conversion_mapping !! t = None.
Proof.
  destruct (decide (t ∈ ["STRING"; "DATETIME"; "TIMESTAMP"; "FLOAT"; "BYTES"])) as [Hin|Hout].
  - left. repeat (apply elem_of_cons in Hin; destruct Hin as [Hin|Hin]; [auto 6|]).
    apply elem_of_nil in Hin. destruct Hin.
  - right. unfold data_type_conversion_mapping.
    apply not_elem_of_list_to_map_1. exact Hout.
Qed.

(** A type without an entry in the conversion table gets the generic cast. *)
Lemma select_line_generic (mapping : gmap string string) (field : schema_field) (t : string) :
  mapping !! sf_name field = Some t ->
  data_type_conversion_mapping !! t = None ->
  select_line mapping field
  = Ok (tab +:+ "CAST(" +:+ sf_name field +:+ " AS " +:+ t +:+ ") AS " +:+ sf_name field).
Proof.
  intros Ht Hnone.
  assert (Hdefault :
    format default_conversion_expr
      (<["field_name" := sf_name field]> {[ "default_type" := str_of_type (Some t) ]})
    = Ok ("CAST(" +:+ sf_name field +:+ " AS " +:+ t +:+ ") AS " +:+ sf_name field +:+ "")).
  { unfold default_conversion_expr. format_steps. }
  unfold select_line. cbv zeta. rewrite Ht. unfold conversion_template.
  rewrite Hnone. cbn [mbind result_bind]. rewrite Hdefault.
  rewrite append_nil_r. reflexivity.
Qed.

(** A column missing from the final schema is cast to the text [None]. *)
Lemma select_line_missing (mapping : gmap string string) (field : schema_field) :
  mapping !! sf_name field = None ->
  select_line mapping field
  = Ok (tab +:+ "CAST(" +:+ sf_name field +:+ " AS None) AS " +:+ sf_name field).
Proof.
  intros Hnone.
  assert (Hdefault :
    format default_conversion_expr
      (<["field_name" := sf_name field]> {[ "default_type" := str_of_type None ]})
    = Ok ("CAST(" +:+ sf_name field +:+ " AS " +:+ "None" +:+ ") AS " +:+ sf_name field +:+ "")).
  { unfold default_conversion_expr. format_steps. }
  unfold select_line. cbv zeta. rewrite Hnone. unfold conversion_template.
  cbn [mbind result_bind]. rewrite Hdefault.
  rewrite append_nil_r. reflexivity.
Qed.

Lemma select_line_template (mapping : gmap string string) (field : schema_field)
    (t : string) (template : list piece) (line : string) :
  mapping !! sf_name field = Some t ->
  data_type_conversion_mapping !! t = Some template ->
  format template {[ "field_name" := sf_name field ]} = Ok line ->
  select_line mapping field = Ok (tab +:+ line).
Proof.
  intros Ht Htemplate Hline. unfold select_line. cbv zeta. rewrite Ht.
  unfold conversion_template. rewrite Htemplate. cbn [mbind result_bind].
  rewrite Hline. reflexivity.
Qed.

Lemma select_line_string (mapping : gmap string string) (field : schema_field) :
  mapping !! sf_name field = Some "STRING" ->
  select_line mapping field = Ok (tab +:+ sf_name field).
Proof.
  intros Ht.
  eapply eq_trans;
    [ eapply select_line_template; [exact Ht | vm_compute; reflexivity | format_steps] | ].
  rewrite append_nil_r. reflexivity.
Qed.

Lemma select_line_datetime (mapping : gmap string string) (field : schema_field) :
  mapping !! sf_name field = Some "DATETIME" ->
  select_line mapping field
  = Ok (tab +:+ "EXTRACT(DATETIME FROM TIMESTAMP_MILLIS(CAST(REGEXP_EXTRACT(" +:+
        sf_name field +:+
        (", r" +:+ dq +:+ "/Date\((-?\d+)\)" +:+ dq +:+ ") AS INT64))) AS ") +:+
        sf_name field).
Proof.
  intros Ht.
  eapply eq_trans;
    [ eapply select_line_template; [exact Ht | vm_compute; reflexivity | format_steps] | ].
  rewrite append_nil_r. reflexivity.
Qed.

Lemma select_line_timestamp (mapping : gmap string string) (field : schema_field) :
  mapping !! sf_name field = Some "TIMESTAMP" ->
  select_line mapping field
  = Ok (tab +:+ "TIMESTAMP_MILLIS(CAST(REGEXP_EXTRACT(" +:+
        sf_name field +:+
        (", r" +:+ dq +:+ "/Date\(([-+]?\d+)\+0000\)/" +:+ dq +:+ ") AS INT64)) AS ") +:+
        sf_name field).
Proof.
  intros Ht.
  eapply eq_trans;
    [ eapply select_line_template; [exact Ht | vm_compute; reflexivity | format_steps] | ].
  rewrite append_nil_r. reflexivity.
Qed.

Lemma select_line_float (mapping : gmap string string) (field : schema_field) :
  mapping !! sf_name field = Some "FLOAT" ->
  select_line mapping field
  = Ok (tab +:+ "CAST(" +:+ sf_name field +:+ " AS FLOAT64) AS " +:+ sf_name field).
Proof.
  intros Ht.
  eapply eq_trans;
    [ eapply select_line_template; [exact Ht | vm_compute; reflexivity | format_steps] | ].
  rewrite append_nil_r. reflexivity.
Qed.

Lemma select_line_bytes (mapping : gmap string string) (field : schema_field) :
  mapping !! sf_name field = Some "BYTES" ->
  select_line mapping field
  = Ok (tab +:+ "SELECT CAST(cast(REGEXP_EXTRACT(" +:+
        sf_name field +:+
        (", r" +:+ dq +:+ "[X|binary]'([A-Fa-f0-9][A-Fa-f0-9]*)'" +:+ dq +:+
         ") AS BYTES) AS STRING)")).
Proof.
  intros Ht.
  eapply eq_trans;
    [ eapply select_line_template; [exact Ht | vm_compute; reflexivity | format_steps] | ].
  rewrite append_nil_r. reflexivity.
Qed.

(** The loop body never raises: every raw column gets a line. *)
Lemma select_line_total (mapping : gmap string string) (field : schema_field) :
  exists line, select_line mapping field = Ok line.
Proof.
  destruct (mapping !! sf_name field) as [t|] eqn:Ht.
  - destruct (conversion_lookup_cases t) as [[->|[->|[->|[->| ->]]]]|Hnone].
    + eexists. apply select_line_string. exact Ht.
    + eexists. apply select_line_datetime. exact Ht.
    + eexists. apply select_line_timestamp. exact Ht.
    + eexists. apply select_line_float. exact Ht.
    + eexists. apply select_line_bytes. exact Ht.
    + eexists. apply select_line_generic; eassumption.
  - eexists. apply select_line_missing. exact Ht.
Qed.

Lemma mapM_total {A B : Type} (f : A -> result B) (l : list A) :
  (forall x, exists y, f x = Ok y) -> exists l', mapM f l = Ok l'.
Proof.
  intros Hf. induction l as [|x l [l' IH]]; simpl.
  - eexists. reflexivity.
  - destruct (Hf x) as [y ->]. rewrite IH. simpl. eexists. reflexivity.
Qed.

(** The statement is always produced, with one SELECT line per raw column
    and the target columns listed in the same order. *)
Lemma insert_statement_shape (formatted_table raw_table : string)
    (formatted_schema raw_schema : list schema_field) :
  exists select_lines,
    Forall2 (fun field line => select_line (field_mapping formatted_schema) field = Ok line)
      raw_schema select_lines /\
    insert_raw_into_final_bq formatted_table raw_table formatted_schema raw_schema =
    Ok ((nl +:+ sp4 +:+ "INSERT INTO ") +:+ formatted_table +:+ ("(" +:+ nl +:+ sp4) +:+
        join ("," +:+ nl) (map sf_name raw_schema) +:+
        (nl +:+ sp4 +:+ ")" +:+ nl +:+ sp4 +:+ "SELECT" +:+ nl +:+ sp4) +:+
        join ("," +:+ nl) select_lines +:+
        (nl +:+ sp4 +:+ "FROM ") +:+ raw_table +:+ (";" +:+ nl +:+ sp4)).
Proof.
  destruct (mapM_total (select_line (field_mapping formatted_schema)) raw_schema
              (select_line_total _)) as [select_lines Hlines].
  exists select_lines. split.
  - apply mapM_Forall2. exact Hlines.
  - unfold insert_raw_into_final_bq. rewrite Hlines. cbn [mbind result_bind].
    eapply eq_trans; [unfold insert_base_query; format_steps|].
    rewrite append_nil_r. reflexivity.
Qed.

Lemma last_char_append (a b : string) :
  b <> "" -> last_char (a +:+ b) = last_char b.
Proof.
  intros Hb. induction a as [|c a IH]; [reflexivity|].
  rewrite append_cons. simpl. rewrite IH.
  destruct (a +:+ b) eqn:Hab; [|reflexivity].
  destruct a; [simpl in Hab; contradiction | discriminate Hab].
Qed.

Lemma alias_regroup (a n b m : string) :
  tab +:+ a +:+ n +:+ (b +:+ " AS ") +:+ m = tab +:+ (a +:+ n +:+ b) +:+ " AS " +:+ m.
Proof. repeat rewrite append_assoc. reflexivity. Qed.

(** Outside BYTES, the line of a column of the final schema names its
    output column. *)
Lemma select_line_aliased (mapping : gmap string string) (field : schema_field)
    (t line : string) :
  mapping !! sf_name field = Some t ->
  t <> "BYTES" ->
  select_line mapping field = Ok line ->
  aliased_to (sf_name field) line.
Proof.
  intros Ht Hbytes Hline.
  destruct (conversion_lookup_cases t) as [[->|[->|[->|[->| ->]]]]|Hnone].
  - rewrite (select_line_string _ _ Ht) in Hline. injection Hline as <-. left. reflexivity.
  - rewrite (select_line_datetime _ _ Ht) in Hline. injection Hline as <-.
    right. eexists.
    exact (alias_regroup _ _ (", r" +:+ dq +:+ "/Date\((-?\d+)\)" +:+ dq +:+ ") AS INT64)))") _).
  - rewrite (select_line_timestamp _ _ Ht) in Hline. injection Hline as <-.
    right. eexists.
    exact (alias_regroup _ _
             (", r" +:+ dq +:+ "/Date\(([-+]?\d+)\+0000\)/" +:+ dq +:+ ") AS INT64))") _).
  - rewrite (select_line_float _ _ Ht) in Hline. injection Hline as <-.
    right. eexists. exact (alias_regroup _ _ " AS FLOAT64)" _).
  - contradiction.
  - rewrite (select_line_generic _ _ _ Ht Hnone) in Hline. injection Hline as <-.
    right. exists ("CAST(" +:+ sf_name field +:+ " AS " +:+ t +:+ ")").
    repeat rewrite append_assoc. reflexivity.
Qed.

Lemma bytes_line_not_aliased :
  ~ aliased_to "photo"
      (tab +:+ "SELECT CAST(cast(REGEXP_EXTRACT(photo, r" +:+ dq +:+
       "[X|binary]'([A-Fa-f0-9][A-Fa-f0-9]*)'" +:+ dq +:+ ") AS BYTES) AS STRING)").
Proof.
  intros [Hbare|[expr Halias]].
  - vm_compute in Hbare. discriminate Hbare.
  - apply (f_equal last_char) in Halias.
    rewrite <- (append_assoc tab expr), <- (append_assoc (tab +:+ expr) " AS ") in Halias.
    rewrite (last_char_append _ "photo") in Halias by discriminate.
    vm_compute in Halias. discriminate Halias.
Qed.

(** C3: the code at a final schema with a BYTES column.  The statement is
    produced, with one line per column in declared order and the generic
    cast for INTEGER, but the line of the BYTES column is
    [SELECT CAST(cast(REGEXP_EXTRACT(photo, ...) AS BYTES) AS STRING)]: it
    carries no [AS photo] and is not the bare column either, so not every
    column's expression is aliased back to its own name. *)
Theorem bytes_column_line_not_aliased :
  insert_raw_into_final_bq "final" "temp" sample_final_schema sample_raw_schema =
    Ok ((nl +:+ sp4 +:+ "INSERT INTO ") +:+ "final" +:+ ("(" +:+ nl +:+ sp4) +:+
        join ("," +:+ nl) ["personIdExternal"; "photo"; "seqNumber"] +:+
        (nl +:+ sp4 +:+ ")" +:+ nl +:+ sp4 +:+ "SELECT" +:+ nl +:+ sp4) +:+
        join ("," +:+ nl)
          [tab +:+ "personIdExternal";
           tab +:+ "SELECT CAST(cast(REGEXP_EXTRACT(photo, r" +:+ dq +:+
             "[X|binary]'([A-Fa-f0-9][A-Fa-f0-9]*)'" +:+ dq +:+ ") AS BYTES) AS STRING)";
           tab +:+ "CAST(seqNumber AS INTEGER) AS seqNumber"] +:+
        (nl +:+ sp4 +:+ "FROM ") +:+ "temp" +:+ (";" +:+ nl +:+ sp4)) /\
  select_line (field_mapping sample_final_schema) (SchemaField "photo" "STRING") =
    Ok (tab +:+ "SELECT CAST(cast(REGEXP_EXTRACT(photo, r" +:+ dq +:+
        "[X|binary]'([A-Fa-f0-9][A-Fa-f0-9]*)'" +:+ dq +:+ ") AS BYTES) AS STRING)") /\
  ~ (forall formatted_schema raw_schema : list schema_field,
        map sf_name formatted_schema = map sf_name raw_schema ->
        forall field line,
          field ∈ raw_schema ->
          select_line (field_mapping formatted_schema) field = Ok line ->
          aliased_to (sf_name field) line).
Proof.
  split; [vm_compute; reflexivity|]. split; [vm_compute; reflexivity|].
  intros Hclaim. apply bytes_line_not_aliased.
  apply (Hclaim sample_final_schema sample_raw_schema eq_refl (SchemaField "photo" "STRING")).
  - apply list_elem_of_further, list_elem_of_here.
  - vm_compute. reflexivity.
Qed.

(** ** Occurrences of a text inside a concatenation *)

Lemma append_eq_nil (a b : string) : a +:+ b = "" -> a = "" /\ b = "".
Proof. destruct a; [simpl; auto | discriminate]. Qed.

Lemma starts_with_spec (w s : string) :
  starts_with w s = true <-> exists b, s = w +:+ b.
Proof.
  revert s. induction w as [|c w IH]; intros s; simpl.
  - split; [intros _; exists s; reflexivity | reflexivity].
  - destruct s as [|d s].
    + split; [discriminate | intros [b Hb]; discriminate Hb].
    + destruct (decide (c = d)) as [->|Hne].
      * rewrite IH. split; intros [b Hb]; exists b.
        -- rewrite Hb. reflexivity.
        -- rewrite append_cons in Hb. injection Hb as <-. reflexivity.
      * split; [discriminate|]. intros [b Hb]. rewrite append_cons in Hb.
        injection Hb as Hd _. congruence.
Qed.

Lemma contains_spec (w s : string) : contains w s = true <-> occurs w s.
Proof.
  induction s as [|d s IH].
  - simpl. rewrite orb_false_r, starts_with_spec. split.
    + intros [b Hb]. exists "", b. exact Hb.
    + intros (a & b & Hab). symmetry in Hab. apply append_eq_nil in Hab.
      destruct Hab as [-> Hwb]. exists b. symmetry. exact Hwb.
  - simpl. rewrite orb_true_iff, starts_with_spec, IH. split.
    + intros [[b Hb]|(a & b & Hab)].
      * exists "", b. exact Hb.
      * exists (String d a), b. rewrite Hab. reflexivity.
    + intros (a & b & Hab). destruct a as [|c a].
      * left. exists b. exact Hab.
      * right. rewrite append_cons in Hab. injection Hab as _ Hs. exists a, b. exact Hs.
Qed.

(** A text that lacks [c] and starts inside [v ++ c ++ s] lies within [v]. *)
Lemma prefix_before_separator (w v s b : string) (c : ascii) :
  has_char c w = false ->
  v +:+ String c s = w +:+ b ->
  exists b', v = w +:+ b'.
Proof.
  revert v. induction w as [|d w IH]; intros v Hc Heq.
  - exists v. reflexivity.
  - simpl in Hc. destruct (decide (c = d)) as [|Hne]; [discriminate Hc|].
    destruct v as [|e v].
    + rewrite append_nil_l, append_cons in Heq. injection Heq as Hcd _. congruence.
    + rewrite !append_cons in Heq. injection Heq as -> Heq.
      destruct (IH v Hc Heq) as [b' ->]. exists b'. reflexivity.
Qed.

(** An occurrence cannot straddle a character the text lacks. *)
Lemma occurs_split (w v s : string) (c : ascii) :
  has_char c w = false ->
  occurs w (v +:+ String c s) -> occurs w v \/ occurs w s.
Proof.
  intros Hc (a & b & Heq). revert v Heq.
  induction a as [|d a IH]; intros v Heq.
  - left. rewrite append_nil_l in Heq.
    destruct (prefix_before_separator w v s b c Hc Heq) as [b' ->].
    exists "", b'. reflexivity.
  - destruct v as [|e v].
    + right. rewrite append_nil_l, append_cons in Heq. injection Heq as _ Hs.
      exists a, b. exact Hs.
    + rewrite !append_cons in Heq. injection Heq as -> Heq.
      destruct (IH v Heq) as [(a' & b' & ->)|Hs].
      * left. exists (String d a'), b'. reflexivity.
      * right. exact Hs.
Qed.

Lemma occurs_skip (c d : ascii) (w s : string) :
  d <> c -> occurs (String c w) (String d s) -> occurs (String c w) s.
Proof.
  intros Hne (a & b & Heq). destruct a as [|e a].
  - rewrite append_nil_l, append_cons in Heq. injection Heq as Hd _. congruence.
  - rewrite append_cons in Heq. injection Heq as _ Hs. exists a, b. exact Hs.
Qed.

Lemma occurs_skip_second (c1 c2 d : ascii) (w s : string) :
  d <> c2 ->
  occurs (String c1 (String c2 w)) (String c1 (String d s)) ->
  occurs (String c1 (String c2 w)) (String d s).
Proof.
  intros Hne (a & b & Heq). destruct a as [|e a].
  - rewrite append_nil_l, !append_cons in Heq. injection Heq as Hd _. congruence.
  - rewrite append_cons in Heq. injection Heq as _ Hs. exists a, b. exact Hs.
Qed.

Lemma not_occurs_nil (c : ascii) (w : string) : ~ occurs (String c w) "".
Proof.
  intros (a & b & Heq). symmetry in Heq. apply append_eq_nil in Heq.
  destruct Heq as [_ Heq]. discriminate Heq.
Qed.

(** ** The CREATE TABLE statements *)

Lemma column_definition_typed (field : field_dict) (t : string) :
  f_type field = Some t ->
  column_definition field
  = Ok ((f_name field +:+ " ") +:+ t +:+ " " +:+ f_mode field +:+ " " +:+
        "OPTIONS(description='" +:+ f_description field +:+ "')").
Proof.
  intros Ht. unfold column_definition, str_add_opt. rewrite Ht. simpl.
  rewrite append_assoc. reflexivity.
Qed.

Lemma column_definition_untyped (field : field_dict) :
  f_type field = None -> column_definition field = Raise TypeError.
Proof. intros Ht. unfold column_definition, str_add_opt. rewrite Ht. reflexivity. Qed.

(** The column list is produced exactly when every field has a type. *)
Lemma columns_produced (field_list : list field_dict) :
  Forall (fun field => f_type field <> None) field_list <->
  exists columns, mapM column_definition field_list = Ok columns.
Proof.
  induction field_list as [|field rest IH].
  - split; [intros _; exists []; reflexivity | intros _; constructor].
  - split.
    + intros H. inversion H as [|? ? Hfield Hrest]; subst.
      apply IH in Hrest. destruct Hrest as [columns Hcolumns].
      destruct (f_type field) as [t|] eqn:Ht; [|contradiction].
      simpl. rewrite (column_definition_typed field t Ht), Hcolumns. simpl. eauto.
    + intros [columns H]. simpl in H. inv_bind H. inv_bind H.
      constructor.
      * intros Hnone. rewrite (column_definition_untyped field Hnone) in Hv.
        discriminate Hv.
      * apply IH. eauto.
Qed.

Ltac peel_occurrence H :=
  repeat first
    [ apply occurs_skip in H; [|discriminate]
    | apply occurs_skip_second in H; [|discriminate]
    | apply occurs_split in H; [destruct H as [H|H]; [contradiction|] | reflexivity] ].

Lemma refined_ddl_no_partition (table_id columns cluster_keys descr : string) :
  ~ occurs "PARTITION BY" table_id ->
  ~ occurs "PARTITION BY" columns ->
  ~ occurs "PARTITION BY" cluster_keys ->
  ~ occurs "PARTITION BY" descr ->
  ~ occurs "PARTITION BY"
      (nl +:+
       sp8 +:+ "CREATE TABLE IF NOT EXISTS " +:+ table_id +:+ "(" +:+ nl +:+
       sp12 +:+ columns +:+ nl +:+
       sp8 +:+ ")" +:+ nl +:+
       sp8 +:+ "CLUSTER BY " +:+ cluster_keys +:+ nl +:+
       sp8 +:+ "OPTIONS (" +:+ nl +:+
       sp12 +:+ "description='" +:+ descr +:+ "'" +:+ nl +:+
       sp8 +:+ ");" +:+ nl +:+
       sp4).
Proof.
  intros Hid Hcolumns Hkeys Hdescr H.
  unfold nl, sp4, sp8, sp12 in H.
  repeat rewrite ?append_cons, ?append_nil_l in H.
  peel_occurrence H.
  exact (not_occurs_nil _ _ H).
Qed.

Lemma append_regroup13 (a1 a2 a3 a4 a5 a6 a7 a8 a9 a10 a11 a12 a13 r : string) :
  a1 +:+ a2 +:+ a3 +:+ a4 +:+ a5 +:+ a6 +:+ a7 +:+ a8 +:+ a9 +:+ a10 +:+ a11 +:+ a12 +:+
  a13 +:+ r =
  (a1 +:+ a2 +:+ a3 +:+ a4 +:+ a5 +:+ a6 +:+ a7 +:+ a8 +:+ a9 +:+ a10 +:+ a11 +:+ a12 +:+
   a13) +:+ r.
Proof. repeat rewrite append_assoc. reflexivity. Qed.

Lemma append_regroup10 (a1 a2 a3 a4 a5 a6 a7 a8 a9 a10 r : string) :
  a1 +:+ a2 +:+ a3 +:+ a4 +:+ a5 +:+ a6 +:+ a7 +:+ a8 +:+ a9 +:+ a10 +:+ r =
  (a1 +:+ a2 +:+ a3 +:+ a4 +:+ a5 +:+ a6 +:+ a7 +:+ a8 +:+ a9 +:+ a10) +:+ r.
Proof. repeat rewrite append_assoc. reflexivity. Qed.

(** C5: whenever the two tables are created (the module is a text and every
    field has a type), the statement [create_bq_final_table] sends carries
    the line [PARTITION BY DATE_TRUNC(_PARTITIONTIME, DAY)] right after the
    closing parenthesis of the column list, followed by [CLUSTER BY] over
    all keys in declared order; the statement [create_bq_refined_table]
    sends goes from that parenthesis straight to the same [CLUSTER BY]
    clause, and [PARTITION BY] occurs nowhere in it unless the descriptor's
    own texts bring it in. *)
Theorem final_partitioned_refined_clustered (py_repr : xml -> string)
    (str_lower str_strip : string -> string) (project rf_project : option string)
    (metadata : entity_dict) (module_text : string) :
  module metadata = XStr module_text ->
  Forall (fun field => f_type field <> None) (fields metadata) ->
  exists columns,
    mapM column_definition (fields metadata) = Ok columns /\
    (exists table_id pre post,
        create_bq_final_table py_repr str_lower str_strip project metadata =
        Ok (table_id,
            pre +:+ ")" +:+ nl +:+ sp8 +:+
            "PARTITION BY DATE_TRUNC(_PARTITIONTIME, DAY)" +:+ nl +:+ sp8 +:+
            "CLUSTER BY " +:+ join "," (keys metadata) +:+ nl +:+ post)) /\
    (exists table_id ddl,
        create_bq_refined_table py_repr str_lower str_strip rf_project metadata =
        Ok (table_id, ddl) /\
        (exists pre post,
            ddl = pre +:+ ")" +:+ nl +:+ sp8 +:+
                  "CLUSTER BY " +:+ join "," (keys metadata) +:+ nl +:+ post) /\
        (~ occurs "PARTITION BY" table_id ->
         ~ occurs "PARTITION BY" (join "," columns) ->
         ~ occurs "PARTITION BY" (join "," (keys metadata)) ->
         ~ occurs "PARTITION BY" (py_str py_repr (description metadata)) ->
         ~ occurs "PARTITION BY" ddl)).
Proof.
  intros Hmodule Htyped. apply columns_produced in Htyped.
  destruct Htyped as [columns Hcolumns].
  exists columns. split; [exact Hcolumns|]. split.
  - unfold create_bq_final_table, dataset_id, dataset_module. rewrite Hmodule.
    cbn [mbind result_bind]. unfold create_bq_final_table_ddl. rewrite Hcolumns.
    cbn [mbind result_bind].
    eexists _, (nl +:+ sp8 +:+ "CREATE TABLE IF NOT EXISTS " +:+ _ +:+ "(" +:+
                nl +:+ sp12 +:+ join "," columns +:+ nl +:+ sp8), _.
    f_equal. f_equal. apply append_regroup10.
  - unfold create_bq_refined_table, dataset_id, dataset_module. rewrite Hmodule.
    cbn [mbind result_bind]. unfold create_bq_refined_table_ddl. rewrite Hcolumns.
    cbn [mbind result_bind].
    eexists _, _. split; [reflexivity|]. split.
    + eexists (nl +:+ sp8 +:+ "CREATE TABLE IF NOT EXISTS " +:+ _ +:+ "(" +:+
               nl +:+ sp12 +:+ join "," columns +:+ nl +:+ sp8), _.
      apply append_regroup10.
    + apply refined_ddl_no_partition.
Qed.

Lemma final_partitioned_refined_clustered_witness :
  (exists pre post,
     create_bq_final_table (fun _ => "") (fun s => s) (fun s => s) (Some "landing")
       sample_descriptor =
     Ok ("landing.ds_sfsf_EC.EmpJob",
         pre +:+ ")" +:+ nl +:+ sp8 +:+
         "PARTITION BY DATE_TRUNC(_PARTITIONTIME, DAY)" +:+ nl +:+ sp8 +:+
         "CLUSTER BY " +:+ "personIdExternal" +:+ nl +:+ post)) /\
  (exists ddl,
     create_bq_refined_table (fun _ => "") (fun s => s) (fun s => s) (Some "analytics")
       sample_descriptor = Ok ("analytics.ds_sfsf_EC.EmpJob", ddl) /\
     (exists pre post,
        ddl = pre +:+ ")" +:+ nl +:+ sp8 +:+
              "CLUSTER BY " +:+ "personIdExternal" +:+ nl +:+ post) /\
     ~ occurs "PARTITION BY" ddl).
Proof.
  destruct (final_partitioned_refined_clustered (fun _ => "") (fun s => s) (fun s => s)
              (Some "landing") (Some "analytics") sample_descriptor
              "Employee Central (EC)")
    as (columns & Hcolumns & (final_id & pre & post & Hfinal) &
        refined_id & ddl & Hrefined & Hshape & Hno).
  - reflexivity.
  - repeat constructor; discriminate.
  - assert (Hfinal_id : final_id = "landing.ds_sfsf_EC.EmpJob").
    { revert Hfinal. unfold create_bq_final_table.
      destruct (dataset_id (fun s => s) (fun s => s) (Some "landing")
                  (module sample_descriptor)) as [dataset|e] eqn:Hdataset;
        [|discriminate].
      vm_compute in Hdataset. injection Hdataset as <-.
      cbn [mbind result_bind].
      destruct (create_bq_final_table_ddl _ _ _); [|discriminate].
      cbn [mbind result_bind]. intros [= <- _]. reflexivity. }
    assert (Hrefined_id : refined_id = "analytics.ds_sfsf_EC.EmpJob").
    { revert Hrefined. unfold create_bq_refined_table.
      destruct (dataset_id (fun s => s) (fun s => s) (Some "analytics")
                  (module sample_descriptor)) as [dataset|e] eqn:Hdataset;
        [|discriminate].
      vm_compute in Hdataset. injection Hdataset as <-.
      cbn [mbind result_bind].
      destruct (create_bq_refined_table_ddl _ _ _); [|discriminate].
      cbn [mbind result_bind]. intros [= <- _]. reflexivity. }
    subst final_id refined_id. split.
    + exists pre, post. exact Hfinal.
    + exists ddl. split; [exact Hrefined|]. split; [exact Hshape|].
      vm_compute in Hcolumns. injection Hcolumns as <-.
      apply Hno; rewrite <- contains_spec; vm_compute; discriminate.
Defined.

(** ** The shared descriptor and [create_bq_raw_table] *)

Lemma widen_field_frame (field : field_dict) :
  f_name (widen_field field) = f_name field /\
  f_mode (widen_field field) = f_mode field /\
  f_description (widen_field field) = f_description field /\
  f_type (widen_field field) =
    (if decide (f_type field = Some "BOOL") then Some "BOOL" else Some "STRING").
Proof.
  unfold widen_field. destruct (decide (f_type field = Some "BOOL")) as [Hbool|Hother].
  - rewrite Hbool. auto.
  - simpl. auto.
Qed.

Lemma load_job_schema_widened (metadata : entity_dict) :
  load_job_schema (widen_fields metadata) = load_job_schema metadata.
Proof.
  unfold load_job_schema, widen_fields. simpl. rewrite map_map.
  apply map_ext. intros field.
  destruct (widen_field_frame field) as (-> & _ & _ & ->).
  destruct (decide (f_type field = Some "BOOL")); reflexivity.
Qed.

Lemma column_names_widened (metadata : entity_dict) :
  column_names (widen_fields metadata) = column_names metadata.
Proof.
  unfold column_names, widen_fields. simpl. rewrite map_map.
  apply map_ext. intros field. apply widen_field_frame.
Qed.

Lemma merge_query_text_widened (metadata : entity_dict) (raw_table_id rf_table_id : string) :
  merge_query_text (widen_fields metadata) raw_table_id rf_table_id =
  merge_query_text metadata raw_table_id rf_table_id.
Proof.
  unfold merge_query_text, merge_columns, merge_mapping, mapping_items, merge_condition,
    condition_items.
  rewrite column_names_widened. reflexivity.
Qed.

(** The raw DDL never fails on the fields: after the widening every field
    has a type. *)
Lemma raw_ddl_produced (table_id : string) (metadata : entity_dict) :
  exists ddl, create_bq_raw_table_ddl table_id (widen_fields metadata) = Ok ddl.
Proof.
  unfold create_bq_raw_table_ddl. simpl.
  assert (Hcolumns : exists columns,
             mapM raw_column_definition (map widen_field (fields metadata)) = Ok columns).
  { induction (fields metadata) as [|field rest [columns IH]]; simpl.
    - eexists. reflexivity.
    - rewrite IH. unfold raw_column_definition at 1, str_add_opt.
      destruct (widen_field_frame field) as (_ & _ & _ & ->).
      destruct (decide (f_type field = Some "BOOL")); simpl; eexists; reflexivity. }
  destruct Hcolumns as [columns ->]. simpl. eexists. reflexivity.
Qed.

(** C8 (as amended): [create_bq_raw_table] rewrites the shared descriptor in
    place.  After it every field whose type is not BOOL has type STRING in
    the one descriptor the later steps read, while entity name, keys, module,
    description and each field's name, mode and description are as before.
    The final and refined DDL are synthesized earlier, from the original
    types, and the later consumers (load-job schema, merge query) produce
    what they would have produced from the original descriptor. *)
Theorem raw_table_widens_shared_descriptor (py_repr : xml -> string)
    (str_lower str_strip sqlparse_format : string -> string)
    (project rf_project : option string) (metadata : entity_dict) :
  let after := (create_bq_raw_table str_lower str_strip project metadata).1 in
  (name after = name metadata /\ keys after = keys metadata /\
   module after = module metadata /\ description after = description metadata) /\
  Forall2 (fun old new =>
             f_name new = f_name old /\ f_mode new = f_mode old /\
             f_description new = f_description old /\
             f_type new =
               (if decide (f_type old = Some "BOOL") then Some "BOOL" else Some "STRING"))
          (fields metadata) (fields after) /\
  (forall final_id fddl rf_id rddl,
      create_bq_final_table py_repr str_lower str_strip project metadata
        = Ok (final_id, fddl) ->
      create_bq_refined_table py_repr str_lower str_strip rf_project metadata
        = Ok (rf_id, rddl) ->
      exists temp_id rawddl merge,
        create_merge_query sqlparse_format metadata final_id rf_id = Ok merge /\
        synthesis_steps py_repr str_lower str_strip sqlparse_format project rf_project
          metadata
        = (after,
           Ok {| final_table_id := final_id;
                 final_ddl := fddl;
                 rf_table_id := rf_id;
                 refined_ddl := rddl;
                 temp_table_id := temp_id;
                 raw_ddl := rawddl;
                 load_schema := load_job_schema metadata;
                 merge_query := merge |})).
Proof.
  intros after. split; [|split].
  - subst after. simpl. auto.
  - subst after. simpl. induction (fields metadata) as [|field rest IH]; simpl.
    + constructor.
    + constructor; [apply widen_field_frame | exact IH].
  - intros final_id fddl rf_id rddl Hfinal Hrefined.
    unfold synthesis_steps. rewrite Hfinal, Hrefined.
    unfold create_bq_final_table in Hfinal. inv_bind Hfinal.
    subst after. unfold create_bq_raw_table. simpl. rewrite Hv.
    cbn [mbind result_bind].
    destruct (raw_ddl_produced (v +:+ ".temp_" +:+ name metadata) metadata)
      as [rawddl Hraw].
    rewrite Hraw. cbn [mbind result_bind].
    unfold create_merge_query. rewrite merge_query_text_widened.
    rewrite merge_query_text_eq. cbn [mbind result_bind].
    rewrite load_job_schema_widened.
    eexists _, _, _. split; reflexivity.
Qed.

Lemma raw_table_widens_shared_descriptor_witness :
  exists final_id fddl rf_id rddl temp_id rawddl merge,
    synthesis_steps (fun _ => "") (fun s => s) (fun s => s) (fun s => s)
      (Some "landing") (Some "analytics") sample_descriptor
    = ((create_bq_raw_table (fun s => s) (fun s => s) (Some "landing") sample_descriptor).1,
       Ok {| final_table_id := final_id;
             final_ddl := fddl;
             rf_table_id := rf_id;
             refined_ddl := rddl;
             temp_table_id := temp_id;
             raw_ddl := rawddl;
             load_schema := load_job_schema sample_descriptor;
             merge_query := merge |}).
Proof.
  destruct (raw_table_widens_shared_descriptor (fun _ => "") (fun s => s) (fun s => s)
              (fun s => s) (Some "landing") (Some "analytics") sample_descriptor)
    as (_ & _ & Hrun).
  eexists _, _, _, _.
  destruct (Hrun _ _ _ _ eq_refl eq_refl) as (temp_id & rawddl & merge & _ & Hsteps).
  exists temp_id, rawddl, merge. exact Hsteps.
Defined.

(** C8 (as stated) fails: the descriptor is mutated.  After
    [create_bq_raw_table] the DATETIME field of the sample descriptor has type
    STRING, and that is the descriptor left for the rest of the run; so it is
    not true that the call leaves the field types as they were. *)
Lemma raw_table_mutates_descriptor :
  (map f_type (fields sample_descriptor) = [Some "STRING"; Some "DATETIME"; Some "BOOL"] /\
   map f_type
     (fields (create_bq_raw_table (fun s => s) (fun s => s) (Some "landing")
                sample_descriptor).1)
     = [Some "STRING"; Some "STRING"; Some "BOOL"] /\
   map f_type
     (fields (synthesis_steps (fun _ => "") (fun s => s) (fun s => s) (fun s => s)
                (Some "landing") (Some "analytics") sample_descriptor).1)
     = [Some "STRING"; Some "STRING"; Some "BOOL"]) /\
  ~ (forall (str_lower str_strip : string -> string) (project : option string)
            (metadata : entity_dict),
        map f_type (fields (create_bq_raw_table str_lower str_strip project metadata).1)
        = map f_type (fields metadata)).
Proof.
  split.
  - repeat split; vm_compute; reflexivity.
  - intros Hclaim.
    specialize (Hclaim (fun s => s) (fun s => s) (Some "landing") sample_descriptor).
    vm_compute in Hclaim. discriminate Hclaim.
Qed.

(** ** The row-count request *)


(** C10: [get_entity_count] returns a value only when the body of the count
    response parses as an integer, and then exactly that integer; for any
    other body the handler logs the exception and the body, the local
    [count] is still unbound, and the function raises at [return count]. *)
Theorem get_entity_count_parsed_or_unbound {json : Type} (py_int : string -> option Z)
    (entity : string) (r : response json) (rest : list (response json))
    (tr : list event) :
  let w := mk_world (r :: rest) tr in
  let requested := tr ++ [Request (api_root +:+ entity +:+ "/$count")] in
  (forall n, py_int (text r) = Some n ->
             get_entity_count py_int entity w = Some (Ok n, mk_world rest requested)) /\
  (py_int (text r) = None ->
   get_entity_count py_int entity w =
   Some (Raise UnboundLocalError,
         mk_world rest (requested ++ [PrintExn ValueError; Print (text r)]))) /\
  (forall n w', get_entity_count py_int entity w = Some (Ok n, w') ->
                py_int (text r) = Some n).
Proof.
  intros w requested. subst w requested.
  unfold get_entity_count, io_bind, requests_get. simpl.
  destruct (py_int (text r)) as [n|] eqn:Hparse.
  - split; [|split].
    + intros n' [= <-]. reflexivity.
    + discriminate.
    + intros n' w' [= <- _]. reflexivity.
  - split; [|split].
    + discriminate.
    + intros _. unfold emit, io_ret, io_raise. simpl.
      rewrite <- app_assoc. reflexivity.
    + unfold emit, io_ret, io_raise. simpl. discriminate.
Qed.

Lemma get_entity_count_parsed_or_unbound_witness :
  get_entity_count sample_int "EmpJob" (mk_world [sample_count_response] [])
    = Some (Ok 3, mk_world [] [Request (api_root +:+ "EmpJob" +:+ "/$count")]) /\
  get_entity_count sample_int "EmpJob" (mk_world [sample_error_response] [])
    = Some (Raise UnboundLocalError,
            mk_world [] ([Request (api_root +:+ "EmpJob" +:+ "/$count")] ++
                         [PrintExn ValueError; Print "<error>Entity not found</error>"])).
Proof.
  split.
  - apply (get_entity_count_parsed_or_unbound sample_int "EmpJob" sample_count_response [] []).
    vm_compute. reflexivity.
  - apply (get_entity_count_parsed_or_unbound sample_int "EmpJob" sample_error_response [] []).
    vm_compute. reflexivity.
Defined.

(** ** The pagination loop *)


Section Pagination.

Context {json : Type}.
Variable json_dumps : list (string * jval json) -> string.

Lemma dict_pop_none (key : string) (line : list (string * jval json)) :
  dict_pop key line = None <-> key ∉ map fst line.
Proof.
  induction line as [|[k v] line IH]; cbn [dict_pop map fst].
  - split; [intros _; apply not_elem_of_nil | reflexivity].
  - destruct (decide (k = key)) as [->|Hne].
    + split; [discriminate|]. intros Hnot. exfalso. apply Hnot. apply list_elem_of_here.
    + rewrite not_elem_of_cons. destruct (dict_pop key line) as [rest|]; cbn.
      * split; [discriminate|]. intros [_ Hnot]. apply IH in Hnot. discriminate Hnot.
      * split; [|reflexivity]. intros _. split; [congruence | apply IH; reflexivity].
Qed.

Lemma dump_lines_all (rows : list (list (string * jval json))) :
  Forall (fun line => "__metadata" ∈ map fst line) rows ->
  exists popped,
    Forall2 (fun line line' => dict_pop "__metadata" line = Some line') rows popped /\
    dump_lines json_dumps (map JDict rows) =
    (foldr (fun line' written => json_dumps line' +:+ nl +:+ written) "" popped, None).
Proof.
  induction 1 as [|line rows Hline _ (popped & Hpopped & IH)].
  - exists []. split; [constructor | reflexivity].
  - destruct (dict_pop "__metadata" line) as [line'|] eqn:Hpop.
    + exists (line' :: popped). split; [constructor; assumption|].
      cbn [map dump_lines line_pop]. rewrite Hpop, IH. reflexivity.
    + apply dict_pop_none in Hpop. contradiction.
Qed.








Lemma store_data_keeps_replies (entity : string) (data : jval json) (page_number : nat)
    (w w' : world json) (outcome : result unit) :
  store_data json_dumps entity data page_number w = Some (outcome, w') ->
  replies w' = replies w.
Proof.
  unfold store_data, io_bind, emit, io_ret, io_raise.
  destruct (jval_iter data) as [lines|e].
  - destruct (dump_lines json_dumps lines) as [written [e|]];
      intros [= _ <-]; reflexivity.
  - intros [= _ <-]. reflexivity.
Qed.

Lemma make_odata_request_consumes (url data : jval json) (w w' : world json) :
  make_odata_request url w = Some (Ok data, w') ->
  length (replies w) = S (length (replies w')).
Proof.
  unfold make_odata_request, io_bind, requests_get, io_lift, io_ret, io_raise.
  destruct url as [|address| | |]; try discriminate.
  destruct (replies w) as [|r rest]; [discriminate|].
  destruct (json_body r) as [|parsed]; [discriminate|].
  destruct (dict_get parsed "d") as [[| | | |]|e]; try discriminate;
    intros [= _ <-]; reflexivity.
Qed.

(** A pass that gives a new [next_page] has consumed one response. *)
Lemma fetch_page_consumes (entity : string) (url next_page : jval json) (page_number : nat)
    (w w' : world json) :
  fetch_page json_dumps entity url page_number w = Some (Ok next_page, w') ->
  length (replies w) = S (length (replies w')).
Proof.
  unfold fetch_page. unfold io_bind at 1.
  destruct (make_odata_request url w) as [[[data|e] w1]|] eqn:Hrequest; try discriminate.
  apply make_odata_request_consumes in Hrequest. rewrite Hrequest.
  unfold io_bind at 1, io_lift at 1.
  destruct (dict_get data "results") as [results|e]; [|discriminate].
  unfold io_bind at 1, io_lift at 1.
  destruct (py_len results) as [rows|e]; [|discriminate].
  unfold io_bind at 1, emit at 1. unfold io_bind at 1.
  destruct (store_data json_dumps entity results page_number _) as [[[[]|e] w2]|] eqn:Hstore;
    try discriminate.
  apply store_data_keeps_replies in Hstore. cbn [replies] in Hstore.
  unfold io_lift. intros [= _ <-]. rewrite Hstore. reflexivity.
Qed.

(** The bound of [follow_pages] is no restriction: any bound above the
    number of responses still to come gives the same run. *)
Lemma follow_pages_bound (entity : string) (n : nat) :
  forall (m : nat) (url : jval json) (page_number : nat) (w : world json),
    (length (replies w) < n)%nat -> (length (replies w) < m)%nat ->
    follow_pages json_dumps n entity url page_number w =
    follow_pages json_dumps m entity url page_number w.
Proof.
  induction n as [|n IH]; intros m url page_number w Hn Hm; [lia|].
  destruct m as [|m]; [lia|].
  cbn [follow_pages]. unfold io_bind.
  destruct (fetch_page json_dumps entity url page_number w) as [[[next_page|e] w']|] eqn:Hfetch;
    [|reflexivity|reflexivity].
  apply fetch_page_consumes in Hfetch.
  destruct next_page; try reflexivity; apply IH; lia.
Qed.

End Pagination.




(** * Further properties of the code *)

(** ** The staging table *)

Lemma widen_field_idempotent (field : field_dict) :
  widen_field (widen_field field) = widen_field field.
Proof.
  unfold widen_field. destruct (decide (f_type field = Some "BOOL")) as [Hbool|Hother].
  - destruct (decide (f_type field = Some "BOOL")); [reflexivity | contradiction].
  - simpl. destruct (decide (Some "STRING" = Some "BOOL")) as [Heq|_];
      [discriminate Heq | reflexivity].
Qed.

Lemma widen_fields_idempotent (metadata : entity_dict) :
  widen_fields (widen_fields metadata) = widen_fields metadata.
Proof.
  unfold widen_fields. simpl. f_equal. rewrite map_map.
  apply map_ext. intros field. apply widen_field_idempotent.
Qed.

(** X1: Calling [create_bq_raw_table] again on the descriptor it has left
    changes nothing and builds the same statement; after the first call
    every field type is BOOL or STRING. *)
Theorem raw_table_call_is_idempotent (str_lower str_strip : string -> string)
    (project : option string) (metadata : entity_dict) :
  let once := create_bq_raw_table str_lower str_strip project metadata in
  create_bq_raw_table str_lower str_strip project once.1 = once /\
  Forall (fun field => f_type field = Some "BOOL" \/ f_type field = Some "STRING")
         (fields once.1).
Proof.
  intros once. subst once. unfold create_bq_raw_table. cbn [fst].
  rewrite widen_fields_idempotent. split; [reflexivity|].
  simpl. apply Forall_forall. intros field Hin.
  apply list_elem_of_fmap in Hin. destruct Hin as (old & -> & _).
  destruct (widen_field_frame old) as (_ & _ & _ & ->).
  destruct (decide (f_type old = Some "BOOL")); auto.
Qed.

(** X2: [create_bq_raw_table] can only fail on the module: with a text module
    it always returns the [temp_] table identifier and a statement, also when
    field types are missing; with any other module it raises
    [AttributeError], and the descriptor has been rewritten all the same. *)
Theorem raw_table_outcome (str_lower str_strip : string -> string)
    (project : option string) (metadata : entity_dict) :
  (create_bq_raw_table str_lower str_strip project metadata).1 = widen_fields metadata /\
  (forall s, module metadata = XStr s ->
     exists ddl,
       (create_bq_raw_table str_lower str_strip project metadata).2 =
       Ok (str_of_env project +:+ ".ds_sfsf_" +:+
           str_strip (str_lower
             (str_slice s (str_find "("%char s + 1) (str_find ")"%char s))) +:+
           ".temp_" +:+ name metadata,
           ddl)) /\
  ((forall s, module metadata <> XStr s) ->
   (create_bq_raw_table str_lower str_strip project metadata).2 = Raise AttributeError).
Proof.
  split; [reflexivity|]. split.
  - intros s Hmodule. unfold create_bq_raw_table. cbn [snd].
    change (module (widen_fields metadata)) with (module metadata).
    change (name (widen_fields metadata)) with (name metadata).
    unfold dataset_id, dataset_module. rewrite Hmodule. cbn [mbind result_bind].
    match goal with
    | |- context [create_bq_raw_table_ddl ?tid _] =>
        destruct (raw_ddl_produced tid metadata) as [ddl Hddl]
    end.
    rewrite Hddl. cbn [mbind result_bind].
    exists ddl. rewrite append_assoc, append_assoc. reflexivity.
  - intros Hmodule. unfold create_bq_raw_table. cbn [snd].
    change (module (widen_fields metadata)) with (module metadata).
    unfold dataset_id, dataset_module.
    destruct (module metadata) as [|s|items|attrs elems]; try reflexivity.
    exfalso. apply (Hmodule s). reflexivity.
Qed.

Lemma raw_table_outcome_witness :
  (exists ddl,
     (create_bq_raw_table (fun s => s) (fun s => s) (Some "landing") sample_descriptor).2 =
     Ok ("landing" +:+ ".ds_sfsf_" +:+
         str_slice "Employee Central (EC)"
           (str_find "("%char "Employee Central (EC)" + 1)
           (str_find ")"%char "Employee Central (EC)") +:+
         ".temp_" +:+ "EmpJob", ddl)) /\
  (create_bq_raw_table (fun s => s) (fun s => s) (Some "landing")
     {| name := "EmpJob"; keys := ["userId"]; fields := [mk_field "userId" None "" "Id."];
        module := XNone; description := XNone |}).2 = Raise AttributeError.
Proof.
  split.
  - apply (raw_table_outcome (fun s => s) (fun s => s) (Some "landing") sample_descriptor).
    reflexivity.
  - apply (raw_table_outcome (fun s => s) (fun s => s) (Some "landing")
             {| name := "EmpJob"; keys := ["userId"];
                fields := [mk_field "userId" None "" "Id."];
                module := XNone; description := XNone |}).
    discriminate.
Defined.

(** X3: The column list of the staging statement is the load-job schema: the
    same names in the same order, each with the type the load job declares. *)
Theorem raw_columns_are_load_schema (table_id : string) (metadata : entity_dict) :
  create_bq_raw_table_ddl table_id (widen_fields metadata) =
  Ok (nl +:+
      sp8 +:+ "CREATE TABLE IF NOT EXISTS " +:+ table_id +:+ "(" +:+ nl +:+
      sp12 +:+
      join "," (map (fun column => (sf_name column +:+ " ") +:+ field_type column)
                    (load_job_schema metadata)) +:+ nl +:+
      sp8 +:+ ");" +:+ nl +:+
      sp4).
Proof.
  unfold create_bq_raw_table_ddl.
  assert (Hcolumns :
    mapM raw_column_definition (fields (widen_fields metadata)) =
    Ok (map (fun column => (sf_name column +:+ " ") +:+ field_type column)
            (load_job_schema metadata))).
  { unfold load_job_schema, widen_fields. cbn [fields].
    induction (fields metadata) as [|field rest IH]; [reflexivity|].
    cbn [map mapM]. rewrite IH.
    unfold raw_column_definition at 1, str_add_opt.
    destruct (widen_field_frame field) as (-> & _ & _ & ->).
    destruct (decide (f_type field = Some "BOOL")); reflexivity. }
  rewrite Hcolumns. reflexivity.
Qed.

(** ** The final and refined tables *)

Lemma columns_type_error (field_list : list field_dict) :
  Exists (fun field => f_type field = None) field_list ->
  mapM column_definition field_list = Raise TypeError.
Proof.
  induction field_list as [|field rest IH]; intros H.
  - inversion H.
  - cbn [mapM]. destruct (f_type field) as [t|] eqn:Ht.
    + rewrite (column_definition_typed field t Ht). cbn [mbind result_bind].
      inversion H as [? ? Hhere|? ? Hlater]; subst; [congruence|].
      rewrite (IH Hlater). reflexivity.
    + rewrite (column_definition_untyped field Ht). reflexivity.
Qed.

(** X4: [create_bq_final_table] and [create_bq_refined_table] fail in two ways
    only, checked in this order: a module that is not a text raises
    [AttributeError]; otherwise a field without a type raises [TypeError];
    otherwise both return [<project>.ds_sfsf_<code>.<entity>] and a
    statement. *)
Theorem typed_table_outcome (py_repr : xml -> string) (str_lower str_strip : string -> string)
    (project : option string) (metadata : entity_dict) :
  ((forall s, module metadata <> XStr s) ->
   create_bq_final_table py_repr str_lower str_strip project metadata
     = Raise AttributeError /\
   create_bq_refined_table py_repr str_lower str_strip project metadata
     = Raise AttributeError) /\
  (forall s, module metadata = XStr s ->
     let table_id :=
       (str_of_env project +:+ ".ds_sfsf_" +:+
        str_strip (str_lower
          (str_slice s (str_find "("%char s + 1) (str_find ")"%char s)))) +:+
       "." +:+ name metadata in
     (Exists (fun field => f_type field = None) (fields metadata) ->
      create_bq_final_table py_repr str_lower str_strip project metadata
        = Raise TypeError /\
      create_bq_refined_table py_repr str_lower str_strip project metadata
        = Raise TypeError) /\
     (Forall (fun field => f_type field <> None) (fields metadata) ->
      exists final_ddl refined_ddl,
        create_bq_final_table py_repr str_lower str_strip project metadata
          = Ok (table_id, final_ddl) /\
        create_bq_refined_table py_repr str_lower str_strip project metadata
          = Ok (table_id, refined_ddl))).
Proof.
  split.
  - intros Hmodule. unfold create_bq_final_table, create_bq_refined_table,
      dataset_id, dataset_module.
    destruct (module metadata) as [|s|items|attrs elems]; try (split; reflexivity).
    exfalso. apply (Hmodule s). reflexivity.
  - intros s Hmodule table_id. subst table_id.
    unfold create_bq_final_table, create_bq_refined_table, dataset_id, dataset_module.
    rewrite Hmodule. cbn [mbind result_bind].
    unfold create_bq_final_table_ddl, create_bq_refined_table_ddl. split.
    + intros Huntyped. rewrite (columns_type_error _ Huntyped). split; reflexivity.
    + intros Htyped. apply columns_produced in Htyped. destruct Htyped as [columns ->].
      cbn [mbind result_bind]. eexists _, _. split; reflexivity.
Qed.

Lemma typed_table_outcome_witness :
  (create_bq_final_table (fun _ => "") (fun s => s) (fun s => s) (Some "landing")
     {| name := "EmpJob"; keys := ["userId"]; fields := [mk_field "userId" None "" "Id."];
        module := XNone; description := XNone |} = Raise AttributeError /\
   create_bq_refined_table (fun _ => "") (fun s => s) (fun s => s) (Some "landing")
     {| name := "EmpJob"; keys := ["userId"]; fields := [mk_field "userId" None "" "Id."];
        module := XNone; description := XNone |} = Raise AttributeError) /\
  (create_bq_final_table (fun _ => "") (fun s => s) (fun s => s) (Some "landing")
     {| name := "EmpJob"; keys := ["userId"]; fields := [mk_field "userId" None "" "Id."];
        module := XStr "Employee Central (EC)"; description := XNone |} = Raise TypeError /\
   create_bq_refined_table (fun _ => "") (fun s => s) (fun s => s) (Some "landing")
     {| name := "EmpJob"; keys := ["userId"]; fields := [mk_field "userId" None "" "Id."];
        module := XStr "Employee Central (EC)"; description := XNone |} = Raise TypeError) /\
  (exists final_ddl refined_ddl,
     create_bq_final_table (fun _ => "") (fun s => s) (fun s => s) (Some "landing")
       sample_descriptor = Ok ("landing.ds_sfsf_EC.EmpJob", final_ddl) /\
     create_bq_refined_table (fun _ => "") (fun s => s) (fun s => s) (Some "landing")
       sample_descriptor = Ok ("landing.ds_sfsf_EC.EmpJob", refined_ddl)).
Proof.
  split; [|split].
  - apply (typed_table_outcome (fun _ => "") (fun s => s) (fun s => s) (Some "landing")
             {| name := "EmpJob"; keys := ["userId"];
                fields := [mk_field "userId" None "" "Id."];
                module := XNone; description := XNone |}).
    discriminate.
  - destruct (typed_table_outcome (fun _ => "") (fun s => s) (fun s => s) (Some "landing")
                {| name := "EmpJob"; keys := ["userId"];
                   fields := [mk_field "userId" None "" "Id."];
                   module := XStr "Employee Central (EC)"; description := XNone |})
      as [_ Htext].
    apply (Htext "Employee Central (EC)" eq_refl).
    apply Exists_cons_hd. reflexivity.
  - destruct (typed_table_outcome (fun _ => "") (fun s => s) (fun s => s) (Some "landing")
                sample_descriptor) as [_ Htext].
    apply (Htext "Employee Central (EC)" eq_refl).
    repeat constructor; discriminate.
Defined.

(** X5: For the same project and descriptor, [create_bq_refined_table] and
    [create_bq_final_table] name the same table, and the refined statement
    is the final statement with the line
    [PARTITION BY DATE_TRUNC(_PARTITIONTIME, DAY)] in front of [CLUSTER BY]
    taken out and nothing else changed. *)
Theorem refined_is_final_without_partition (py_repr : xml -> string)
    (str_lower str_strip : string -> string) (project : option string)
    (metadata : entity_dict) (table_id ddl : string) :
  create_bq_refined_table py_repr str_lower str_strip project metadata =
  Ok (table_id, ddl) ->
  exists pre post,
    ddl = pre +:+ "CLUSTER BY " +:+ post /\
    create_bq_final_table py_repr str_lower str_strip project metadata =
    Ok (table_id,
        pre +:+ "PARTITION BY DATE_TRUNC(_PARTITIONTIME, DAY)" +:+ nl +:+ sp8 +:+
        "CLUSTER BY " +:+ post).
Proof.
  unfold create_bq_refined_table, create_bq_final_table. intros H.
  destruct (dataset_id str_lower str_strip project (module metadata)) as [dataset|e];
    cbn [mbind result_bind] in *; [|discriminate H].
  unfold create_bq_refined_table_ddl in H. unfold create_bq_final_table_ddl.
  destruct (mapM column_definition (fields metadata)) as [columns|e];
    cbn [mbind result_bind] in *; [|discriminate H].
  injection H as <- <-.
  exists (nl +:+ sp8 +:+ "CREATE TABLE IF NOT EXISTS " +:+
          (dataset +:+ "." +:+ name metadata) +:+ "(" +:+ nl +:+
          sp12 +:+ join "," columns +:+ nl +:+ sp8 +:+ ")" +:+ nl +:+ sp8).
  exists (join "," (keys metadata) +:+ nl +:+
          sp8 +:+ "OPTIONS (" +:+ nl +:+
          sp12 +:+ "description='" +:+ py_str py_repr (description metadata) +:+ "'" +:+ nl +:+
          sp8 +:+ ");" +:+ nl +:+
          sp4).
  split.
  - apply append_regroup13.
  - f_equal. f_equal. apply append_regroup13.
Qed.

Lemma refined_is_final_without_partition_witness :
  exists ddl pre post,
    create_bq_refined_table (fun _ => "") (fun s => s) (fun s => s) (Some "landing")
      sample_descriptor = Ok ("landing.ds_sfsf_EC.EmpJob", ddl) /\
    ddl = pre +:+ "CLUSTER BY " +:+ post /\
    create_bq_final_table (fun _ => "") (fun s => s) (fun s => s) (Some "landing")
      sample_descriptor =
    Ok ("landing.ds_sfsf_EC.EmpJob",
        pre +:+ "PARTITION BY DATE_TRUNC(_PARTITIONTIME, DAY)" +:+ nl +:+ sp8 +:+
        "CLUSTER BY " +:+ post).
Proof.
  destruct (create_bq_refined_table (fun _ => "") (fun s => s) (fun s => s)
              (Some "landing") sample_descriptor) as [[table_id ddl]|e] eqn:Hrefined;
    [|vm_compute in Hrefined; discriminate Hrefined].
  assert (Hid : table_id = "landing.ds_sfsf_EC.EmpJob").
  { vm_compute in Hrefined. injection Hrefined as <- _. reflexivity. }
  subst table_id.
  destruct (refined_is_final_without_partition (fun _ => "") (fun s => s) (fun s => s)
              (Some "landing") sample_descriptor "landing.ds_sfsf_EC.EmpJob" ddl Hrefined)
    as (pre & post & Hddl & Hfinal).
  exists ddl, pre, post. split; [reflexivity|]. split; [exact Hddl | exact Hfinal].
Defined.

(** ** The fields of the descriptor *)

Lemma entity_field_inv (node : xml) (built : option field_dict) :
  entity_field node = Ok built ->
  match built with
  | Some field =>
      is_visible node = true /\
      subscript_attr node "@Name" = Ok (f_name field) /\
      (exists source_type,
          subscript_attr node "@Type" = Ok source_type /\
          f_type field = data_type_mapping !! source_type) /\
      (exists nullable,
          subscript_attr node "@Nullable" = Ok nullable /\
          f_mode field = if decide (nullable = "true") then "" else "NOT NULL")
  | None => is_visible node = false
  end.
Proof.
  unfold entity_field, is_visible. intros H. inv_bind H. rewrite Hv.
  destruct (decide (v = "true")) as [->|Hhidden].
  - do 4 inv_bind H. injection H as <-. cbn [f_name f_type f_mode].
    split; [reflexivity|]. split; [assumption|]. split; eauto.
  - injection H as <-. apply bool_decide_eq_false. exact Hhidden.
Qed.

Lemma kept_filter (nodes : list xml) (built : list (option field_dict)) :
  Forall2 (fun node b => entity_field node = Ok b) nodes built ->
  Forall2 (fun node field => entity_field node = Ok (Some field))
    (List.filter is_visible nodes) (kept built).
Proof.
  induction 1 as [|node b nodes built Hnode Hrest IH]; [constructor|].
  pose proof (entity_field_inv node b Hnode) as Hinv.
  destruct b as [field|]; cbn [List.filter].
  - destruct Hinv as (-> & _). unfold kept. cbn. constructor; assumption.
  - rewrite Hinv. exact IH.
Qed.

Lemma process_metadata_fields (metadata : xml) (d : entity_dict) :
  process_metadata metadata = Ok d -> entity_fields metadata = Ok (fields d).
Proof.
  intros H. apply process_metadata_parts in H.
  destruct H as (located & tags & Hparts & _ & _ & _ & _ & Hfields & _).
  unfold entity_parts in Hparts. do 10 inv_bind Hparts. injection Hparts as <-.
  rewrite Hfields. exact Hv8.
Qed.

Lemma entity_fields_built (metadata : xml) (field_list : list field_dict) (props : xml) :
  entity_fields metadata = Ok field_list ->
  property_list metadata = Ok props ->
  exists items built,
    py_iter props = Ok items /\
    Forall2 (fun node b => entity_field node = Ok b) items built /\
    field_list = kept built.
Proof.
  unfold entity_fields, property_list, schema_at. intros H Hprops.
  do 6 inv_bind H. injection H as <-.
  rewrite Hv in Hprops. cbn [mbind result_bind] in Hprops.
  rewrite Hv0 in Hprops. cbn [mbind result_bind] in Hprops.
  rewrite Hv1 in Hprops. cbn [mbind result_bind] in Hprops.
  rewrite Hv2 in Hprops. injection Hprops as <-.
  exists v3, v4. split; [exact Hv3|]. split; [|reflexivity].
  apply mapM_Forall2. exact Hv4.
Qed.

Lemma fields_of_visible_nodes (metadata : xml) (d : entity_dict) (nodes : list xml) :
  process_metadata metadata = Ok d ->
  property_list metadata = Ok (XList nodes) ->
  Forall2 (fun node field => entity_field node = Ok (Some field))
    (List.filter is_visible nodes) (fields d).
Proof.
  intros Hrun Hprops. apply process_metadata_fields in Hrun.
  destruct (entity_fields_built _ _ _ Hrun Hprops) as (items & built & Hiter & Hbuilt & ->).
  injection Hiter as <-. apply kept_filter. exact Hbuilt.
Qed.

(** X6: The fields of the descriptor are the visible properties of the document,
    in document order and with nothing else: each takes its name from
    [@Name], its type from the table lookup on [@Type], and its mode from
    [@Nullable] (empty for ["true"], NOT NULL for anything else). *)
Theorem fields_are_visible_properties (metadata : xml) (d : entity_dict)
    (nodes : list xml) :
  process_metadata metadata = Ok d ->
  property_list metadata = Ok (XList nodes) ->
  Forall2 (fun node field =>
             subscript_attr node "@Name" = Ok (f_name field) /\
             (exists source_type,
                 subscript_attr node "@Type" = Ok source_type /\
                 f_type field = data_type_mapping !! source_type) /\
             (exists nullable,
                 subscript_attr node "@Nullable" = Ok nullable /\
                 f_mode field = if decide (nullable = "true") then "" else "NOT NULL"))
          (List.filter is_visible nodes) (fields d).
Proof.
  intros Hrun Hprops. apply process_metadata_fields in Hrun.
  destruct (entity_fields_built _ _ _ Hrun Hprops) as (items & built & Hiter & Hbuilt & ->).
  injection Hiter as <-.
  apply kept_filter in Hbuilt.
  eapply Forall2_impl; [exact Hbuilt|].
  intros node field Hnode. apply entity_field_inv in Hnode.
  destruct Hnode as (_ & Hname & Htype & Hmode). auto.
Qed.

Lemma fields_are_visible_properties_witness :
  Forall2 (fun node field =>
             subscript_attr node "@Name" = Ok (f_name field) /\
             (exists source_type,
                 subscript_attr node "@Type" = Ok source_type /\
                 f_type field = data_type_mapping !! source_type) /\
             (exists nullable,
                 subscript_attr node "@Nullable" = Ok nullable /\
                 f_mode field = if decide (nullable = "true") then "" else "NOT NULL"))
          (List.filter is_visible
             [sample_property "personIdExternal" "Edm.String" "false" "true" "Person Id";
              sample_property "lastModifiedDateTime" "Edm.DateTime" "true" "true"
                "Last Modified";
              sample_property "isActive" "Edm.Boolean" "true" "true" "Active";
              sample_property "internalCode" "Edm.Int32" "true" "false" "Hidden"])
          (fields sample_descriptor).
Proof.
  apply (fields_are_visible_properties sample_single_key sample_descriptor).
  - vm_compute. reflexivity.
  - vm_compute. reflexivity.
Defined.

(** X7: The single-or-list normalization is done for the keys only.  When the
    entity has one property, [Property] is a single node; the comprehension
    then iterates over its attribute names, the first subscript raises
    [TypeError], and the parser returns no descriptor. *)
Theorem single_property_is_not_normalized (metadata : xml)
    (attrs : list (string * string)) (elems : list (string * xml)) :
  property_list metadata = Ok (XDict attrs elems) ->
  (attrs <> [] \/ elems <> []) ->
  entity_fields metadata = Raise TypeError /\
  forall d, process_metadata metadata <> Ok d.
Proof.
  intros Hprops Hnonempty.
  assert (Hfields : entity_fields metadata = Raise TypeError).
  { unfold property_list in Hprops. do 2 inv_bind Hprops.
    unfold schema_at in Hv. inv_bind Hv.
    unfold entity_fields. rewrite Hv1. cbn [mbind result_bind].
    rewrite Hv. cbn [mbind result_bind]. rewrite Hv0. cbn [mbind result_bind].
    rewrite Hprops. cbn [mbind result_bind py_iter].
    destruct attrs as [|[k v2] attrs]; [|reflexivity].
    destruct elems as [|[k v2] elems]; [|reflexivity].
    destruct Hnonempty as [H|H]; contradiction. }
  split; [exact Hfields|].
  intros d Hrun. apply process_metadata_fields in Hrun. congruence.
Qed.

Lemma single_property_is_not_normalized_witness :
  entity_fields sample_single_property = Raise TypeError /\
  forall d, process_metadata sample_single_property <> Ok d.
Proof.
  apply (single_property_is_not_normalized sample_single_property
           [("@Name", "userId"); ("@Type", "Edm.String"); ("@Nullable", "false");
            ("@sap:visible", "true"); ("@sap:label", "User Id")] []).
  - vm_compute. reflexivity.
  - left. discriminate.
Defined.

(** X8: A visible property whose source type is outside the table gets through
    the parser and stops the run at the first typed table: both
    [create_bq_final_table] and [create_bq_refined_table] raise [TypeError]
    on the descriptor. *)
Theorem unmapped_type_stops_typed_tables (py_repr : xml -> string)
    (str_lower str_strip : string -> string) (project : option string)
    (metadata : xml) (d : entity_dict) (nodes : list xml) (node : xml)
    (source_type s : string) :
  process_metadata metadata = Ok d ->
  property_list metadata = Ok (XList nodes) ->
  node ∈ nodes ->
  is_visible node = true ->
  subscript_attr node "@Type" = Ok source_type ->
  data_type_mapping !! source_type = None ->
  module d = XStr s ->
  create_bq_final_table py_repr str_lower str_strip project d = Raise TypeError /\
  create_bq_refined_table py_repr str_lower str_strip project d = Raise TypeError.
Proof.
  intros Hrun Hprops Hin Hvisible Htype Hnone Hmodule.
  pose proof (fields_of_visible_nodes metadata d nodes Hrun Hprops) as Hfields.
  assert (Hnode : node ∈ List.filter is_visible nodes).
  { apply list_elem_of_In, filter_In. split; [apply list_elem_of_In; exact Hin | exact Hvisible]. }
  apply list_elem_of_lookup_1 in Hnode. destruct Hnode as [i Hi].
  destruct (Forall2_lookup_l _ _ _ _ _ Hfields Hi) as (field & Hfield & Hbuilt).
  apply entity_field_inv in Hbuilt.
  destruct Hbuilt as (_ & _ & (source_type' & Htype' & Hlookup) & _).
  assert (Huntyped : Exists (fun field => f_type field = None) (fields d)).
  { apply Exists_exists. exists field. split.
    - eapply list_elem_of_lookup_2. exact Hfield.
    - rewrite Hlookup. congruence. }
  unfold create_bq_final_table, create_bq_refined_table, dataset_id, dataset_module.
  rewrite Hmodule. cbn [mbind result_bind].
  unfold create_bq_final_table_ddl, create_bq_refined_table_ddl.
  rewrite (columns_type_error _ Huntyped). split; reflexivity.
Qed.

Lemma unmapped_type_stops_typed_tables_witness :
  create_bq_final_table (fun _ => "") (fun s => s) (fun s => s) (Some "landing")
    {| name := "EmpJob"; keys := ["photoId"];
       fields := [mk_field "photoId" (Some "INTEGER") "NOT NULL" "Photo Id.";
                  mk_field "photo" None "" "Photo."];
       module := XStr "Employee Central (EC)";
       description := XStr "Employee job information" |} = Raise TypeError /\
  create_bq_refined_table (fun _ => "") (fun s => s) (fun s => s) (Some "landing")
    {| name := "EmpJob"; keys := ["photoId"];
       fields := [mk_field "photoId" (Some "INTEGER") "NOT NULL" "Photo Id.";
                  mk_field "photo" None "" "Photo."];
       module := XStr "Employee Central (EC)";
       description := XStr "Employee job information" |} = Raise TypeError.
Proof.
  apply (unmapped_type_stops_typed_tables (fun _ => "") (fun s => s) (fun s => s)
           (Some "landing") sample_unmapped _
           [sample_property "photoId" "Edm.Int64" "false" "true" "Photo Id";
            sample_property "photo" "Edm.Stream" "true" "true" "Photo"]
           (sample_property "photo" "Edm.Stream" "true" "true" "Photo")
           "Edm.Stream" "Employee Central (EC)").
  - vm_compute. reflexivity.
  - vm_compute. reflexivity.
  - apply list_elem_of_further, list_elem_of_here.
  - vm_compute. reflexivity.
  - vm_compute. reflexivity.
  - vm_compute. reflexivity.
  - reflexivity.
Defined.

(** ** The pipeline description and the parser *)

Lemma formatted_field_of_entity_field (node : xml) (built : option field_dict) :
  entity_field node = Ok built ->
  exists built',
    formatted_entity_field node = Ok built' /\
    match built, built' with
    | Some field, Some formatted =>
        ff_name formatted = f_name field /\
        f_type field = data_type_mapping !! ff_type formatted /\
        f_mode field = (if ff_nullable formatted then "" else "NOT NULL")
    | None, None => True
    | _, _ => False
    end.
Proof.
  unfold entity_field, formatted_entity_field. intros H. inv_bind H. rewrite Hv.
  cbn [mbind result_bind].
  destruct (decide (v = "true")) as [_|_].
  - do 4 inv_bind H. injection H as <-. rewrite Hv0, Hv1, Hv2.
    cbn [mbind result_bind]. eexists. split; [reflexivity|].
    cbn [ff_name ff_type ff_nullable f_name f_type f_mode].
    split; [reflexivity|]. split; [reflexivity|].
    destruct (decide (v2 = "true")) as [Hn|Hn].
    + rewrite bool_decide_eq_true_2 by exact Hn. reflexivity.
    + rewrite bool_decide_eq_false_2 by exact Hn. reflexivity.
  - injection H as <-. exists None. split; [reflexivity | exact I].
Qed.

Lemma formatted_fields_built (items : list xml) (built : list (option field_dict)) :
  Forall2 (fun node b => entity_field node = Ok b) items built ->
  exists built',
    mapM formatted_entity_field items = Ok built' /\
    Forall2 (fun field formatted =>
               ff_name formatted = f_name field /\
               f_type field = data_type_mapping !! ff_type formatted /\
               f_mode field = (if ff_nullable formatted then "" else "NOT NULL"))
            (kept built) (kept_formatted built').
Proof.
  induction 1 as [|node b items built Hnode Hrest (built' & Hbuilt' & IH)].
  - exists []. split; [reflexivity | constructor].
  - destruct (formatted_field_of_entity_field node b Hnode) as (b' & Hb' & Hrel).
    exists (b' :: built'). split.
    + cbn [mapM]. rewrite Hb', Hbuilt'. reflexivity.
    + destruct b as [field|], b' as [formatted|]; try contradiction.
      * unfold kept, kept_formatted. cbn. constructor; assumption.
      * exact IH.
Qed.

(** What the parser has walked through when it returns a descriptor. *)
Lemma parser_walk (metadata : xml) (d : entity_dict) :
  process_metadata metadata = Ok d ->
  exists fields_schema entity_type props items built,
    schema_at metadata 1%nat = Ok fields_schema /\
    subscript fields_schema "EntityType" = Ok entity_type /\
    subscript_attr entity_type "@Name" = Ok (name d) /\
    entity_keys fields_schema = Ok (keys d) /\
    subscript entity_type "Property" = Ok props /\
    py_iter props = Ok items /\
    Forall2 (fun node b => entity_field node = Ok b) items built /\
    fields d = kept built.
Proof.
  intros H. apply process_metadata_parts in H.
  destruct H as (located & tags & Hparts & _ & _ & Hname & Hkeys & Hfields & _).
  unfold entity_parts in Hparts. do 10 inv_bind Hparts. injection Hparts as <-.
  cbn [p_name p_keys p_fields] in Hname, Hkeys, Hfields.
  unfold entity_fields in Hv8. do 6 inv_bind Hv8. injection Hv8 as <-.
  assert (Hsame : v0 = v10).
  { unfold schema_at in Hv0. rewrite Hv9 in Hv0. cbn [mbind result_bind] in Hv0. congruence. }
  subst v10.
  assert (Hsame : v4 = v11) by congruence. subst v11.
  exists v0, v4, v12, v13, v14.
  rewrite Hname, Hkeys, Hfields.
  repeat split; try assumption.
  apply mapM_Forall2. assumption.
Qed.

(** X9: [format_metadata] succeeds on every document the parser accepts, and the
    two agree: same entity name, same keys, and field by field the same name,
    with the parser's type the table lookup of the pipeline's source type and
    the parser's mode empty exactly for the nullable ones. *)
Theorem format_metadata_agrees_with_parser (metadata : xml) (d : entity_dict) :
  process_metadata metadata = Ok d ->
  exists formatted,
    format_metadata metadata = Ok formatted /\
    fm_name formatted = name d /\
    fm_keys formatted = keys d /\
    Forall2 (fun field ff =>
               ff_name ff = f_name field /\
               f_type field = data_type_mapping !! ff_type ff /\
               f_mode field = (if ff_nullable ff then "" else "NOT NULL"))
            (fields d) (fm_fields formatted).
Proof.
  intros H. apply parser_walk in H.
  destruct H as (fs & et & props & items & built & Hfs & Het & Hname & Hkeys & Hprops &
                 Hitems & Hbuilt & Hfields).
  destruct (formatted_fields_built items built Hbuilt) as (built' & Hbuilt' & Hrel).
  unfold format_metadata. rewrite Hfs. cbn [mbind result_bind].
  rewrite Het. cbn [mbind result_bind]. rewrite Hname. cbn [mbind result_bind].
  rewrite Hkeys. cbn [mbind result_bind]. rewrite Hprops. cbn [mbind result_bind].
  rewrite Hitems. cbn [mbind result_bind]. rewrite Hbuilt'. cbn [mbind result_bind].
  eexists. split; [reflexivity|]. cbn [fm_name fm_keys fm_fields].
  rewrite Hfields. auto.
Qed.

Lemma format_metadata_agrees_with_parser_witness :
  exists formatted,
    format_metadata sample_single_key = Ok formatted /\
    fm_name formatted = name sample_descriptor /\
    fm_keys formatted = keys sample_descriptor /\
    Forall2 (fun field ff =>
               ff_name ff = f_name field /\
               f_type field = data_type_mapping !! ff_type ff /\
               f_mode field = (if ff_nullable ff then "" else "NOT NULL"))
            (fields sample_descriptor) (fm_fields formatted).
Proof.
  apply (format_metadata_agrees_with_parser sample_single_key sample_descriptor).
  vm_compute. reflexivity.
Defined.

Lemma json_field_name (field : formatted_field) :
  jf_name (json_field_of field) = ff_name field.
Proof. unfold json_field_of. destruct (ff_nullable field); reflexivity. Qed.

Lemma format_metadata_names (metadata : xml) (d : entity_dict) :
  process_metadata metadata = Ok d ->
  exists formatted,
    format_metadata metadata = Ok formatted /\
    fm_name formatted = name d /\
    map ff_name (fm_fields formatted) = map f_name (fields d).
Proof.
  intros H. apply parser_walk in H.
  destruct H as (fs & et & props & items & built & Hfs & Het & Hname & Hkeys & Hprops &
                 Hitems & Hbuilt & Hfields).
  destruct (formatted_fields_built items built Hbuilt) as (built' & Hbuilt' & Hrel).
  unfold format_metadata. rewrite Hfs. cbn [mbind result_bind].
  rewrite Het. cbn [mbind result_bind]. rewrite Hname. cbn [mbind result_bind].
  rewrite Hkeys. cbn [mbind result_bind]. rewrite Hprops. cbn [mbind result_bind].
  rewrite Hitems. cbn [mbind result_bind]. rewrite Hbuilt'. cbn [mbind result_bind].
  eexists. split; [reflexivity|]. cbn [fm_name fm_fields]. split; [reflexivity|].
  rewrite Hfields. clear -Hrel.
  induction Hrel as [|field ff l l' (Hn & _) _ IH]; [reflexivity|].
  cbn [map]. rewrite Hn, IH. reflexivity.
Qed.

(** X10: The pipeline description reads the same columns the ingestion requests:
    for every document the parser accepts, the pipeline values are computed,
    its schema fields and its select option list the descriptor's field names
    in order, and the [$select] list of the data URL is that select option. *)
Theorem pipeline_selects_ingested_columns (metadata : xml) (d : entity_dict) :
  process_metadata metadata = Ok d ->
  exists values,
    build_ssff_json_pipeline_values metadata = Ok values /\
    pv_entity values = name d /\
    pv_name values = name d +:+ "_SuccessFactors" /\
    map jf_name (pv_json_fields values) = map f_name (fields d) /\
    pv_select_option values = join "," (map f_name (fields d)) /\
    data_url d =
      api_root +:+ name d +:+ "?$select=" +:+ pv_select_option values +:+
      "&paging=snapshot&$format=json".
Proof.
  intros H. destruct (format_metadata_names metadata d H) as (formatted & Hf & Hname & Hnames).
  unfold build_ssff_json_pipeline_values. rewrite Hf. cbn [mbind result_bind].
  eexists. split; [reflexivity|].
  cbn [pv_entity pv_name pv_json_fields pv_select_option].
  unfold get_select_fields, data_url. rewrite Hname, Hnames, map_map.
  repeat split; try reflexivity.
  rewrite <- Hnames. apply map_ext. intros field. apply json_field_name.
Qed.

Lemma pipeline_selects_ingested_columns_witness :
  exists values,
    build_ssff_json_pipeline_values sample_single_key = Ok values /\
    pv_entity values = "EmpJob" /\
    pv_name values = "EmpJob" +:+ "_SuccessFactors" /\
    map jf_name (pv_json_fields values) =
      ["personIdExternal"; "lastModifiedDateTime"; "isActive"] /\
    pv_select_option values =
      join "," ["personIdExternal"; "lastModifiedDateTime"; "isActive"] /\
    data_url sample_descriptor =
      api_root +:+ "EmpJob" +:+ "?$select=" +:+ pv_select_option values +:+
      "&paging=snapshot&$format=json".
Proof.
  apply (pipeline_selects_ingested_columns sample_single_key sample_descriptor).
  vm_compute. reflexivity.
Defined.

(** X11: The change-tracking column is chosen twice, by different tests.  The
    filter uses [lastModifiedDateTime] when a field has that name and
    [lastModifiedOn] (in both places) otherwise; the upsert keys are the
    entity keys followed by [lastModifiedDateTime] when that is already one
    of the keys, and by [lastModifiedOn] otherwise. *)
Theorem pipeline_filter_and_upsert_key (metadata : xml) (formatted : formatted_metadata) :
  format_metadata metadata = Ok formatted ->
  exists values,
    build_ssff_json_pipeline_values metadata = Ok values /\
    ("lastModifiedDateTime" ∈ map ff_name (fm_fields formatted) ->
     pv_filter_option values =
       "lastModifiedDateTime ge datetime'${logicalStartTime(yyyy-MM-dd,1d)}T00:00:00' and " +:+
       "lastModifiedDateTime le datetime'${logicalStartTime(yyyy-MM-dd'T'HH:mm:ss)}'") /\
    ("lastModifiedDateTime" ∉ map ff_name (fm_fields formatted) ->
     pv_filter_option values =
       "lastModifiedOn ge datetime'${logicalStartTime(yyyy-MM-dd,1d)}T00:00:00' and " +:+
       "lastModifiedOn le datetime'${logicalStartTime(yyyy-MM-dd'T'HH:mm:ss)}'") /\
    ("lastModifiedDateTime" ∈ fm_keys formatted ->
     pv_relation_table_key values =
       join "," (fm_keys formatted ++ ["lastModifiedDateTime"])) /\
    ("lastModifiedDateTime" ∉ fm_keys formatted ->
     pv_relation_table_key values =
       join "," (fm_keys formatted ++ ["lastModifiedOn"])).
Proof.
  intros Hf. unfold build_ssff_json_pipeline_values. rewrite Hf. cbn [mbind result_bind].
  eexists. split; [reflexivity|].
  cbn [pv_filter_option pv_relation_table_key]. unfold get_filter, get_upsert_keys.
  repeat split.
  - intros Hin. rewrite decide_True by exact Hin. reflexivity.
  - intros Hout. rewrite decide_False by exact Hout. vm_compute. reflexivity.
  - intros Hin. rewrite decide_True by exact Hin. reflexivity.
  - intros Hout. rewrite decide_False by exact Hout. reflexivity.
Qed.

(** On the sample entity [lastModifiedDateTime] is a field but not a key:
    the filter is on [lastModifiedDateTime], the upsert key is
    [lastModifiedOn]. *)
Lemma pipeline_filter_and_upsert_key_witness :
  exists values,
    build_ssff_json_pipeline_values sample_single_key = Ok values /\
    pv_filter_option values = base_filter /\
    pv_relation_table_key values = "personIdExternal,lastModifiedOn".
Proof.
  destruct (pipeline_filter_and_upsert_key sample_single_key
              {| fm_name := "EmpJob"; fm_keys := ["personIdExternal"];
                 fm_fields := [mk_formatted_field "personIdExternal" "Edm.String" false;
                               mk_formatted_field "lastModifiedDateTime" "Edm.DateTime" true;
                               mk_formatted_field "isActive" "Edm.Boolean" true] |})
    as (values & Hvalues & Hfilter & _ & _ & Hkey).
  - vm_compute. reflexivity.
  - exists values. split; [exact Hvalues|]. split.
    + apply Hfilter. apply list_elem_of_further, list_elem_of_here.
    + apply Hkey. intros Hin. apply list_elem_of_singleton in Hin. discriminate Hin.
Defined.

(** X12: Every source type of the pipeline table is in the warehouse table; the
    warehouse table has two more, [Edm.Single] and [Edm.Guid], so a field of
    one of these gets a warehouse type and a null pipeline type. *)
Theorem pipeline_table_within_warehouse_table (source_type : string) :
  (is_Some (pipeline_type_mapping !! source_type) ->
   is_Some (data_type_mapping !! source_type)) /\
  (is_Some (data_type_mapping !! source_type) ->
   pipeline_type_mapping !! source_type = None ->
   source_type = "Edm.Single" \/ source_type = "Edm.Guid") /\
  (source_type = "Edm.Single" \/ source_type = "Edm.Guid" ->
   is_Some (data_type_mapping !! source_type) /\
   forall column nullable,
     json_field_of (mk_formatted_field column source_type nullable) =
     {| jf_name := column;
        jf_type := if nullable then WithNull None else Plain None |}).
Proof.
  assert (Hwarehouse : forall t, is_Some (data_type_mapping !! t) ->
            t ∈ ["Edm.Binary"; "Edm.Boolean"; "Edm.DateTime"; "Edm.Time"; "Edm.Int64";
                 "Edm.Decimal"; "Edm.Double"; "Edm.Float"; "Edm.Single"; "Edm.Int32";
                 "Edm.Byte"; "Edm.Int16"; "Edm.SByte"; "Edm.DateTimeOffset";
                 "Edm.Guid"; "Edm.String"]).
  { intros t [w Hw]. match goal with |- t ∈ ?l => destruct (decide (t ∈ l)) as [|Hout] end;
      [assumption|].
    unfold data_type_mapping in Hw. rewrite not_elem_of_list_to_map_1 in Hw by exact Hout.
    discriminate Hw. }
  assert (Hpipeline : forall t, is_Some (pipeline_type_mapping !! t) ->
            t ∈ ["Edm.SByte"; "Edm.Byte"; "Edm.Int16"; "Edm.Int32"; "Edm.Int64";
                 "Edm.Double"; "Edm.Float"; "Edm.Decimal"; "Edm.String"; "Edm.Binary";
                 "Edm.Boolean"; "Edm.DateTime"; "Edm.Time"; "Edm.DateTimeOffset"]).
  { intros t [w Hw]. match goal with |- t ∈ ?l => destruct (decide (t ∈ l)) as [|Hout] end;
      [assumption|].
    unfold pipeline_type_mapping in Hw. rewrite not_elem_of_list_to_map_1 in Hw by exact Hout.
    discriminate Hw. }
  split; [|split].
  - intros H. apply Hpipeline in H.
    repeat (apply elem_of_cons in H; destruct H as [->|H]; [vm_compute; eauto|]).
    apply elem_of_nil in H. destruct H.
  - intros H Hnone. apply Hwarehouse in H.
    repeat (apply elem_of_cons in H; destruct H as [->|H];
            [first [left; reflexivity | right; reflexivity
                   | vm_compute in Hnone; discriminate Hnone]|]).
    apply elem_of_nil in H. destruct H.
  - intros [-> | ->]; (split; [vm_compute; eauto|]);
      intros column [|]; vm_compute; reflexivity.
Qed.

Lemma pipeline_table_within_warehouse_table_witness :
  is_Some (data_type_mapping !! "Edm.Int32") /\
  ("Edm.Guid" = "Edm.Single" \/ "Edm.Guid" = "Edm.Guid") /\
  is_Some (data_type_mapping !! "Edm.Guid").
Proof.
  destruct (pipeline_table_within_warehouse_table "Edm.Int32") as (Hwithin & _ & _).
  destruct (pipeline_table_within_warehouse_table "Edm.Guid") as (_ & Hmore & Honly).
  split; [|split].
  - apply Hwithin. exists (Scalar "int"). vm_compute. reflexivity.
  - apply Hmore; [exists "STRING"; vm_compute; reflexivity | vm_compute; reflexivity].
  - apply Honly. right. reflexivity.
Defined.

(** ** The type lookup of the INSERT ... SELECT statement *)

Lemma field_mapping_snoc (schema : list schema_field) (field : schema_field) :
  field_mapping (schema ++ [field]) =
  <[sf_name field := field_type field]> (field_mapping schema).
Proof. unfold field_mapping. rewrite foldl_app. reflexivity. Qed.

Lemma field_mapping_none (schema : list schema_field) (column : string) :
  field_mapping schema !! column = None <-> column ∉ map sf_name schema.
Proof.
  induction schema as [|field schema IH] using rev_ind.
  - split; [intros _; apply not_elem_of_nil | intros _; apply lookup_empty].
  - rewrite field_mapping_snoc, map_app, not_elem_of_app. cbn [map].
    destruct (decide (sf_name field = column)) as [<-|Hne].
    + rewrite lookup_insert_eq. split; [discriminate|].
      intros [_ Hnot]. exfalso. apply Hnot. apply list_elem_of_here.
    + rewrite lookup_insert_ne by exact Hne. rewrite IH. split.
      * intros H. split; [exact H|]. intros Hin. apply list_elem_of_singleton in Hin.
        congruence.
      * intros [H _]. exact H.
Qed.

(** X13: The types are looked up by column name, and when the final schema
    declares a name more than once its last declaration counts; a name the
    final schema does not declare has no type. *)
Theorem final_type_lookup (formatted_schema : list schema_field) :
  (forall column,
      field_mapping formatted_schema !! column = None <->
      column ∉ map sf_name formatted_schema) /\
  (forall before field after,
      formatted_schema = before ++ field :: after ->
      sf_name field ∉ map sf_name after ->
      field_mapping formatted_schema !! sf_name field = Some (field_type field)).
Proof.
  split; [apply field_mapping_none|].
  intros before field after -> Hlast.
  induction after as [|other after IH] using rev_ind.
  - rewrite field_mapping_snoc. apply lookup_insert_eq.
  - rewrite map_app, not_elem_of_app in Hlast. destruct Hlast as [Hafter Hother].
    change (before ++ field :: after ++ [other]) with (before ++ (field :: after) ++ [other]).
    rewrite app_assoc, field_mapping_snoc.
    rewrite lookup_insert_ne.
    + apply IH. exact Hafter.
    + intros Heq. apply Hother. cbn [map]. rewrite Heq. apply list_elem_of_here.
Qed.

Lemma final_type_lookup_witness :
  field_mapping [SchemaField "amount" "INTEGER"; SchemaField "photo" "BYTES";
                 SchemaField "amount" "FLOAT"] !! "amount" = Some "FLOAT" /\
  field_mapping sample_final_schema !! "startDate" = None.
Proof.
  split.
  - apply (final_type_lookup
             [SchemaField "amount" "INTEGER"; SchemaField "photo" "BYTES";
              SchemaField "amount" "FLOAT"])
      with (before := [SchemaField "amount" "INTEGER"; SchemaField "photo" "BYTES"])
           (field := SchemaField "amount" "FLOAT") (after := []).
    + reflexivity.
    + apply not_elem_of_nil.
  - apply (final_type_lookup sample_final_schema). cbn.
    intros Hin.
    repeat (apply elem_of_cons in Hin; destruct Hin as [Hin|Hin]; [discriminate Hin|]).
    apply elem_of_nil in Hin. exact Hin.
Defined.

(** X14: A staging column the final schema does not declare does not stop the
    statement: it is cast to the text [None]. *)
Theorem undeclared_column_cast_to_none (formatted_schema : list schema_field)
    (field : schema_field) :
  sf_name field ∉ map sf_name formatted_schema ->
  select_line (field_mapping formatted_schema) field =
  Ok (tab +:+ "CAST(" +:+ sf_name field +:+ " AS None) AS " +:+ sf_name field).
Proof.
  intros Hout. apply select_line_missing. apply field_mapping_none. exact Hout.
Qed.

Lemma undeclared_column_cast_to_none_witness :
  select_line (field_mapping sample_final_schema) (SchemaField "startDate" "STRING") =
  Ok (tab +:+ "CAST(" +:+ "startDate" +:+ " AS None) AS " +:+ "startDate").
Proof.
  apply (undeclared_column_cast_to_none sample_final_schema (SchemaField "startDate" "STRING")).
  cbn. intros Hin.
  repeat (apply elem_of_cons in Hin; destruct Hin as [Hin|Hin]; [discriminate Hin|]).
  apply elem_of_nil in Hin. exact Hin.
Defined.

(** X15: Whatever the two schemas are, the statement is produced; it has one
    SELECT line per staging column and lists the staging column names as its
    target columns, both in staging order. *)
Theorem insert_statement_follows_staging_order (formatted_table raw_table : string)
    (formatted_schema raw_schema : list schema_field) :
  exists select_lines,
    length select_lines = length raw_schema /\
    (forall i field,
        raw_schema !! i = Some field ->
        exists line,
          select_lines !! i = Some line /\
          select_line (field_mapping formatted_schema) field = Ok line) /\
    insert_raw_into_final_bq formatted_table raw_table formatted_schema raw_schema =
    Ok ((nl +:+ sp4 +:+ "INSERT INTO ") +:+ formatted_table +:+ ("(" +:+ nl +:+ sp4) +:+
        join ("," +:+ nl) (map sf_name raw_schema) +:+
        (nl +:+ sp4 +:+ ")" +:+ nl +:+ sp4 +:+ "SELECT" +:+ nl +:+ sp4) +:+
        join ("," +:+ nl) select_lines +:+
        (nl +:+ sp4 +:+ "FROM ") +:+ raw_table +:+ (";" +:+ nl +:+ sp4)).
Proof.
  destruct (insert_statement_shape formatted_table raw_table formatted_schema raw_schema)
    as (select_lines & Hlines & Hstatement).
  exists select_lines. split; [|split].
  - symmetry. eapply Forall2_length. exact Hlines.
  - intros i field Hi.
    destruct (Forall2_lookup_l _ _ _ _ _ Hlines Hi) as (line & Hline & Hsel). eauto.
  - exact Hstatement.
Qed.

(** X16: For a column whose final type is anything but BYTES, the SELECT line
    names its output column: it is the bare column (STRING) or ends in
    [AS <column>]. *)
Theorem typed_line_names_its_column (formatted_schema : list schema_field)
    (field : schema_field) (t line : string) :
  field_mapping formatted_schema !! sf_name field = Some t ->
  t <> "BYTES" ->
  select_line (field_mapping formatted_schema) field = Ok line ->
  line = tab +:+ sf_name field \/
  exists expr, line = tab +:+ expr +:+ " AS " +:+ sf_name field.
Proof. intros Ht Hbytes Hline. exact (select_line_aliased _ _ _ _ Ht Hbytes Hline). Qed.

Lemma typed_line_names_its_column_witness :
  tab +:+ "CAST(seqNumber AS INTEGER) AS seqNumber" = tab +:+ "seqNumber" \/
  exists expr, tab +:+ "CAST(seqNumber AS INTEGER) AS seqNumber" =
               tab +:+ expr +:+ " AS " +:+ "seqNumber".
Proof.
  apply (typed_line_names_its_column sample_final_schema
           (SchemaField "seqNumber" "STRING") "INTEGER").
  - vm_compute. reflexivity.
  - discriminate.
  - vm_compute. reflexivity.
Defined.

(** ** Failures while fetching and storing *)

Section RemoteFailures.

Context {json : Type}.
Variable json_dumps : list (string * jval json) -> string.

Lemma dump_lines_stopped (good : list (list (string * jval json)))
    (bad : list (string * jval json)) (rest : list (list (string * jval json))) :
  (dump_lines json_dumps (map JDict good)).2 = None ->
  "__metadata" ∉ map fst bad ->
  dump_lines json_dumps (map JDict (good ++ bad :: rest)) =
  ((dump_lines json_dumps (map JDict good)).1, Some KeyError).
Proof.
  intros Hgood Hbad. apply dict_pop_none in Hbad.
  induction good as [|line good IH]; cbn [app map dump_lines line_pop].
  - rewrite Hbad. reflexivity.
  - cbn [map dump_lines line_pop] in Hgood.
    destruct (dict_pop "__metadata" line) as [line'|]; [|discriminate Hgood].
    destruct (dump_lines json_dumps (map JDict good)) as [written stopped] eqn:Hdump.
    cbn [snd] in Hgood. subst stopped. cbn [fst snd] in IH.
    rewrite (IH eq_refl). reflexivity.
Qed.

(** X17: [store_data] writes one line per row, each row without its
    [__metadata] member, when every row has one.  At the first row without
    it the function raises [KeyError]; the file then holds the lines of the
    rows before that one and nothing of the rows after it. *)
Theorem store_data_outcome (entity : string) (page_number : nat) (w : world json) :
  (forall data,
      Forall (fun line => "__metadata" ∈ map fst line) data ->
      exists popped,
        Forall2 (fun line line' => dict_pop "__metadata" line = Some line') data popped /\
        store_data json_dumps entity (JList (map JDict data)) page_number w =
        Some (Ok tt,
              mk_world (replies w)
                (trace w ++
                 [WriteFile (data_path entity page_number)
                    (foldr (fun line' written => json_dumps line' +:+ nl +:+ written) "" popped)]))) /\
  (forall good bad rest,
      Forall (fun line => "__metadata" ∈ map fst line) good ->
      "__metadata" ∉ map fst bad ->
      exists popped,
        Forall2 (fun line line' => dict_pop "__metadata" line = Some line') good popped /\
        store_data json_dumps entity (JList (map JDict (good ++ bad :: rest))) page_number w =
        Some (Raise KeyError,
              mk_world (replies w)
                (trace w ++
                 [WriteFile (data_path entity page_number)
                    (foldr (fun line' written => json_dumps line' +:+ nl +:+ written) "" popped)]))).
Proof.
  split.
  - intros data Hdata.
    destruct (dump_lines_all json_dumps data Hdata) as (popped & Hpopped & Hdump).
    exists popped. split; [exact Hpopped|].
    unfold store_data. cbn [jval_iter]. rewrite Hdump. reflexivity.
  - intros good bad rest Hgood Hbad.
    destruct (dump_lines_all json_dumps good Hgood) as (popped & Hpopped & Hdump).
    exists popped. split; [exact Hpopped|].
    unfold store_data. cbn [jval_iter].
    rewrite (dump_lines_stopped good bad rest); [|rewrite Hdump; reflexivity|exact Hbad].
    rewrite Hdump. reflexivity.
Qed.

End RemoteFailures.

Lemma store_data_outcome_witness :
  store_data sample_dumps "EmpJob"
    (JList (map JDict
       ([[("__metadata", JStr "{uri: EmpJob(1)}"); ("personIdExternal", JStr "1")]] ++
        [("personIdExternal", JStr "2")] :: [[("__metadata", JStr "{uri: EmpJob(3)}")]])))
    4 (mk_world [] []) =
  Some (Raise KeyError,
        mk_world [] [WriteFile "./data/EmpJob_data_4.json" ("{personIdExternal: 1}" +:+ nl)]).
Proof.
  destruct (store_data_outcome sample_dumps "EmpJob" 4 (mk_world [] [])) as [_ Hstop].
  destruct (Hstop [[("__metadata", JStr "{uri: EmpJob(1)}"); ("personIdExternal", JStr "1")]]
              [("personIdExternal", JStr "2")] [[("__metadata", JStr "{uri: EmpJob(3)}")]])
    as (popped & Hpopped & Hrun).
  - repeat constructor.
  - cbn. intros Hin. apply list_elem_of_singleton in Hin. discriminate Hin.
  - rewrite Hrun. inversion Hpopped as [|? line' ? rest' Hpop Hrest]; subst.
    inversion Hrest; subst. vm_compute in Hpop. injection Hpop as <-.
    vm_compute. reflexivity.
Defined.

Section RunFailures.

Context {json : Type}.
Variable json_dumps : list (string * jval json) -> string.
Variable py_int : string -> option Z.

Lemma get_entity_count_unbound (entity : string) (r : response json)
    (rest : list (response json)) (tr : list event) :
  py_int (text r) = None ->
  get_entity_count py_int entity (mk_world (r :: rest) tr) =
  Some (Raise UnboundLocalError,
        mk_world rest (tr ++ [Request (api_root +:+ entity +:+ "/$count");
                              PrintExn ValueError; Print (text r)])).
Proof.
  intros Hparse. unfold get_entity_count, io_bind, requests_get. simpl.
  rewrite Hparse. unfold emit, io_ret, io_raise. simpl.
  rewrite <- !app_assoc. reflexivity.
Qed.

(** X18: When the count response is not an integer, [get_entity_data] ends with
    the [UnboundLocalError] of the count step: no data page is requested, no
    file is written, and the later responses are left unread. *)
Theorem bad_count_stops_before_the_pages (metadata : entity_dict)
    (count_reply : response json) (later : list (response json)) (tr : list event) :
  py_int (text count_reply) = None ->
  get_entity_data json_dumps py_int metadata (mk_world (count_reply :: later) tr) =
  Some (Raise UnboundLocalError,
        mk_world later
          (tr ++ [Request (api_root +:+ name metadata +:+ "/$count");
                  PrintExn ValueError; Print (text count_reply)])).
Proof.
  intros Hparse. unfold get_entity_data. unfold io_bind at 1.
  rewrite (get_entity_count_unbound _ _ _ _ Hparse). reflexivity.
Qed.




End RunFailures.

Lemma bad_count_stops_before_the_pages_witness :
  get_entity_data sample_dumps sample_int sample_descriptor
    (mk_world (sample_error_response :: sample_replies) []) =
  Some (Raise UnboundLocalError,
        mk_world sample_replies
          ([] ++ [Request (api_root +:+ "EmpJob" +:+ "/$count");
                  PrintExn ValueError; Print "<error>Entity not found</error>"])).
Proof.
  apply (bad_count_stops_before_the_pages sample_dumps sample_int sample_descriptor
           sample_error_response sample_replies []).
  vm_compute. reflexivity.
Defined.


(** ** The metadata request *)

(** X20: [get_entity_metadata] returns the parsed document when the body parses.
    When the parser raises, its exception and the body are printed and
    swallowed, the local [data_dict] is still unbound, and what the caller
    sees is the [UnboundLocalError] of [return data_dict]. *)
Theorem metadata_parsed_or_unbound {json : Type} (xml_parse : string -> result xml)
    (entity : string) (r : response json) (rest : list (response json))
    (tr : list event) :
  (forall parsed,
      xml_parse (text r) = Ok parsed ->
      get_entity_metadata xml_parse entity (mk_world (r :: rest) tr) =
      Some (Ok parsed,
            mk_world rest (tr ++ [Request (api_root +:+ entity +:+ "/$metadata")]))) /\
  (forall e,
      xml_parse (text r) = Raise e ->
      get_entity_metadata xml_parse entity (mk_world (r :: rest) tr) =
      Some (Raise UnboundLocalError,
            mk_world rest (tr ++ [Request (api_root +:+ entity +:+ "/$metadata");
                                  PrintExn e; Print (text r)]))).
Proof.
  split.
  - intros parsed Hparse. unfold get_entity_metadata, io_bind, requests_get. simpl.
    rewrite Hparse. reflexivity.
  - intros e Hparse. unfold get_entity_metadata, io_bind, requests_get. simpl.
    rewrite Hparse. unfold emit, io_ret, io_raise. simpl.
    rewrite <- !app_assoc. reflexivity.
Qed.

Lemma metadata_parsed_or_unbound_witness :
  get_entity_metadata
    (fun body => if decide (body = "<edmx/>") then Ok sample_single_key
                 else Raise (Exception "not well-formed"))
    "EmpJob" (mk_world [mk_response "<edmx/>" (@NotJson string)] []) =
  Some (Ok sample_single_key,
        mk_world [] ([] ++ [Request (api_root +:+ "EmpJob" +:+ "/$metadata")])) /\
  get_entity_metadata
    (fun body => if decide (body = "<edmx/>") then Ok sample_single_key
                 else Raise (Exception "not well-formed"))
    "EmpJob" (mk_world [sample_error_response] []) =
  Some (Raise UnboundLocalError,
        mk_world [] ([] ++ [Request (api_root +:+ "EmpJob" +:+ "/$metadata");
                            PrintExn (Exception "not well-formed");
                            Print "<error>Entity not found</error>"])).
Proof.
  split.
  - apply (metadata_parsed_or_unbound
             (fun body => if decide (body = "<edmx/>") then Ok sample_single_key
                          else Raise (Exception "not well-formed"))
             "EmpJob" (mk_response "<edmx/>" (@NotJson string)) [] []).
    vm_compute. reflexivity.
  - apply (metadata_parsed_or_unbound
             (fun body => if decide (body = "<edmx/>") then Ok sample_single_key
                          else Raise (Exception "not well-formed"))
             "EmpJob" sample_error_response [] []).
    vm_compute. reflexivity.
Defined.

(** ** The dataset code taken from the module text *)

Lemma length_append (a b : string) :
  String.length (a +:+ b) = (String.length a + String.length b)%nat.
Proof.
  induction a as [|c a IH]; [reflexivity|].
  rewrite append_cons. cbn [String.length]. rewrite IH. reflexivity.
Qed.

Lemma has_char_append (c : ascii) (a b : string) :
  has_char c (a +:+ b) = has_char c a || has_char c b.
Proof.
  induction a as [|d a IH]; [reflexivity|].
  rewrite append_cons. cbn [has_char]. destruct (decide (c = d)); [reflexivity | exact IH].
Qed.

Lemma find_from_absent (c : ascii) (s : string) (i : Z) :
  has_char c s = false -> find_from c s i = -1.
Proof.
  revert i. induction s as [|d s IH]; intros i H; [reflexivity|].
  cbn [has_char] in H. cbn [find_from].
  destruct (decide (c = d)) as [|Hne]; [discriminate H|].
  destruct (decide (d = c)) as [Heq|_]; [congruence|]. apply IH. exact H.
Qed.

Lemma find_from_first (c : ascii) (a b : string) (i : Z) :
  has_char c a = false ->
  find_from c (a +:+ String c b) i = i + Z.of_nat (String.length a).
Proof.
  revert i. induction a as [|d a IH]; intros i H.
  - rewrite append_nil_l. cbn [find_from String.length].
    destruct (decide (c = c)); [lia | contradiction].
  - cbn [has_char] in H. destruct (decide (c = d)) as [|Hne]; [discriminate H|].
    rewrite append_cons. cbn [find_from String.length].
    destruct (decide (d = c)) as [Heq|_]; [congruence|].
    rewrite IH by exact H. lia.
Qed.

Lemma substring_skip (a s : string) (m : nat) :
  substring (String.length a) m (a +:+ s) = substring 0 m s.
Proof.
  induction a as [|c a IH]; [reflexivity|].
  rewrite append_cons. cbn [String.length substring]. exact IH.
Qed.

Lemma substring_prefix (code rest : string) :
  substring 0 (String.length code) (code +:+ rest) = code.
Proof.
  induction code as [|c code IH].
  - cbn. destruct rest; reflexivity.
  - rewrite append_cons. cbn [String.length substring]. rewrite IH. reflexivity.
Qed.

(** X21: The dataset code is the text between the first ["("] and the first
    [")"] of the module, lower-cased and stripped.  A module without any
    parenthesis does not fail: the code is then the whole module text but
    its last character. *)
Theorem dataset_code_from_module (str_lower str_strip : string -> string) :
  (forall before code after,
      has_char "("%char before = false ->
      has_char ")"%char before = false ->
      has_char ")"%char code = false ->
      dataset_module str_lower str_strip
        (XStr (before +:+ String "("%char (code +:+ String ")"%char after)))
      = Ok (str_strip (str_lower code))) /\
  (forall s,
      has_char "("%char s = false ->
      has_char ")"%char s = false ->
      dataset_module str_lower str_strip (XStr s)
      = Ok (str_strip (str_lower (substring 0 (String.length s - 1) s)))).
Proof.
  split.
  - intros before code after Hopen Hclose Hcode.
    unfold dataset_module, str_find, str_slice.
    rewrite (find_from_first "("%char before _ 0 Hopen).
    assert (Hstop :
      find_from ")"%char (before +:+ String "("%char (code +:+ String ")"%char after)) 0 =
      Z.of_nat (String.length before + 1 + String.length code)).
    { change (before +:+ String "("%char (code +:+ String ")"%char after))
        with (before +:+ (String "("%char code) +:+ String ")"%char after).
      rewrite <- append_assoc.
      rewrite find_from_first.
      - rewrite length_append. cbn [String.length]. lia.
      - rewrite has_char_append, Hclose. cbn [has_char].
        destruct (decide (")"%char = "("%char)) as [Heq|_]; [discriminate Heq | exact Hcode]. }
    rewrite Hstop.
    rewrite length_append. cbn [String.length]. rewrite length_append. cbn [String.length].
    set (lb := String.length before). set (lc := String.length code).
    set (la := String.length after).
    replace (0 + Z.of_nat lb + 1 <? 0) with false by (symmetry; apply Z.ltb_ge; lia).
    replace (Z.of_nat (lb + 1 + lc) <? 0) with false by (symmetry; apply Z.ltb_ge; lia).
    replace (Z.to_nat (Z.min (0 + Z.of_nat lb + 1) (Z.of_nat (lb + S (lc + S la)))))
      with (String.length (before +:+ "(")) by (rewrite length_append; cbn; lia).
    replace (Z.to_nat (Z.min (Z.of_nat (lb + 1 + lc)) (Z.of_nat (lb + S (lc + S la))) -
                       Z.min (0 + Z.of_nat lb + 1) (Z.of_nat (lb + S (lc + S la)))))
      with lc by lia.
    change (before +:+ String "("%char (code +:+ String ")"%char after))
      with (before +:+ "(" +:+ (code +:+ String ")"%char after)).
    rewrite <- append_assoc, substring_skip. subst lc. rewrite substring_prefix.
    reflexivity.
  - intros s Hopen Hclose. unfold dataset_module, str_find, str_slice.
    rewrite (find_from_absent _ _ _ Hopen), (find_from_absent _ _ _ Hclose).
    cbn [Z.add Z.ltb Z.compare Z.opp Pos.compare Pos.compare_cont].
    replace (-1 + 1) with 0 by lia. cbn [Z.ltb Z.compare].
    replace (Z.to_nat (Z.min 0 (Z.of_nat (String.length s)))) with 0%nat by lia.
    replace (Z.to_nat (Z.max 0 (-1 + Z.of_nat (String.length s)) -
                       Z.min 0 (Z.of_nat (String.length s))))
      with (String.length s - 1)%nat by lia.
    reflexivity.
Qed.

Lemma dataset_code_from_module_witness :
  dataset_module (fun s => s) (fun s => s) (XStr "Employee Central (EC)") = Ok "EC" /\
  dataset_module (fun s => s) (fun s => s) (XStr "Platform") = Ok "Platfor".
Proof.
  destruct (dataset_code_from_module (fun s => s) (fun s => s)) as [Hcode Hnone].
  split.
  - apply (Hcode "Employee Central " "EC" ""); reflexivity.
  - apply (Hnone "Platform"); reflexivity.
Defined.

(** ** The envelope of the metadata document *)

(** X22: The parser needs two schema sections.  When [Schema] is a list with
    fewer than two sections the parser raises [IndexError]; when the document
    has a single section, so that [Schema] is one node and not a list, it
    raises [KeyError]. *)
Theorem two_schema_sections_required (metadata : xml) :
  (forall sections,
      schema_list metadata = Ok (XList sections) ->
      (length sections < 2)%nat ->
      process_metadata metadata = Raise IndexError) /\
  (forall attrs elems,
      schema_list metadata = Ok (XDict attrs elems) ->
      process_metadata metadata = Raise KeyError).
Proof.
  split.
  - intros sections Hlist Hshort.
    unfold process_metadata, entity_parts, schema_at. rewrite Hlist.
    cbn [mbind result_bind].
    destruct sections as [|first [|second sections]]; [reflexivity|reflexivity|].
    simpl in Hshort. lia.
  - intros attrs elems Hdict.
    unfold process_metadata, entity_parts, schema_at. rewrite Hdict. reflexivity.
Qed.

Lemma two_schema_sections_required_witness :
  process_metadata
    (XDict [] [("edmx:Edmx", XDict [] [("edmx:DataServices", XDict [] [("Schema",
       XList [XDict [] [("EntityContainer", XNone)]])])])]) = Raise IndexError /\
  process_metadata
    (XDict [] [("edmx:Edmx", XDict [] [("edmx:DataServices", XDict [] [("Schema",
       XDict [] [("EntityContainer", XNone)])])])]) = Raise KeyError.
Proof.
  split.
  - destruct (two_schema_sections_required
                (XDict [] [("edmx:Edmx", XDict [] [("edmx:DataServices", XDict [] [("Schema",
                   XList [XDict [] [("EntityContainer", XNone)]])])])])) as [Hlist _].
    apply (Hlist [XDict [] [("EntityContainer", XNone)]]); [reflexivity | simpl; lia].
  - destruct (two_schema_sections_required
                (XDict [] [("edmx:Edmx", XDict [] [("edmx:DataServices", XDict [] [("Schema",
                   XDict [] [("EntityContainer", XNone)])])])])) as [_ Hdict].
    apply (Hdict [] [("EntityContainer", XNone)]). reflexivity.
Defined.

(** ** The synthesis steps as a whole *)

(** X23: The synthesis steps of the main block end in one of three ways.  A
    module that is not a text stops them at the final table with
    [AttributeError], a field without a type stops them there with
    [TypeError], and in both cases the descriptor is untouched; otherwise
    every step succeeds, the three table identifiers share the dataset code,
    and the descriptor is left widened. *)
Theorem synthesis_steps_outcome (py_repr : xml -> string)
    (str_lower str_strip sqlparse_format : string -> string)
    (project rf_project : option string) (metadata : entity_dict) :
  ((forall s, module metadata <> XStr s) ->
   synthesis_steps py_repr str_lower str_strip sqlparse_format project rf_project metadata
   = (metadata, Raise AttributeError)) /\
  (forall s, module metadata = XStr s ->
     let code :=
       str_strip (str_lower
         (str_slice s (str_find "("%char s + 1) (str_find ")"%char s))) in
     (Exists (fun field => f_type field = None) (fields metadata) ->
      synthesis_steps py_repr str_lower str_strip sqlparse_format project rf_project metadata
      = (metadata, Raise TypeError)) /\
     (Forall (fun field => f_type field <> None) (fields metadata) ->
      exists produced,
        synthesis_steps py_repr str_lower str_strip sqlparse_format project rf_project
          metadata
        = (widen_fields metadata, Ok produced) /\
        final_table_id produced =
          (str_of_env project +:+ ".ds_sfsf_" +:+ code) +:+ "." +:+ name metadata /\
        rf_table_id produced =
          (str_of_env rf_project +:+ ".ds_sfsf_" +:+ code) +:+ "." +:+ name metadata /\
        temp_table_id produced =
          (str_of_env project +:+ ".ds_sfsf_" +:+ code) +:+ ".temp_" +:+ name metadata /\
        load_schema produced = load_job_schema metadata)).
Proof.
  split.
  - intros Hmodule. unfold synthesis_steps, create_bq_final_table, dataset_id, dataset_module.
    destruct (module metadata) as [|s|items|attrs elems]; try reflexivity.
    exfalso. apply (Hmodule s). reflexivity.
  - intros s Hmodule code. subst code. split.
    + intros Huntyped.
      unfold synthesis_steps, create_bq_final_table, dataset_id, dataset_module.
      rewrite Hmodule. cbn [mbind result_bind].
      unfold create_bq_final_table_ddl. rewrite (columns_type_error _ Huntyped).
      reflexivity.
    + intros Htyped. apply columns_produced in Htyped. destruct Htyped as [columns Hcolumns].
      unfold synthesis_steps, create_bq_final_table, create_bq_refined_table,
        create_bq_raw_table, dataset_id, dataset_module.
      change (module (widen_fields metadata)) with (module metadata).
      change (name (widen_fields metadata)) with (name metadata).
      rewrite Hmodule. cbn [mbind result_bind].
      unfold create_bq_final_table_ddl, create_bq_refined_table_ddl.
      rewrite Hcolumns. cbn [mbind result_bind].
      match goal with
      | |- context [create_bq_raw_table_ddl ?tid _] =>
          destruct (raw_ddl_produced tid metadata) as [rawddl Hraw]
      end.
      rewrite Hraw. cbn [mbind result_bind].
      unfold create_merge_query. rewrite merge_query_text_widened, merge_query_text_eq.
      cbn [mbind result_bind]. rewrite load_job_schema_widened.
      eexists. split; [reflexivity|].
      cbn [final_table_id rf_table_id temp_table_id load_schema].
      repeat split; reflexivity.
Qed.

Lemma synthesis_steps_outcome_witness :
  synthesis_steps (fun _ => "") (fun s => s) (fun s => s) (fun s => s)
    (Some "landing") (Some "analytics")
    {| name := "EmpJob"; keys := ["userId"]; fields := [mk_field "userId" None "" "Id."];
       module := XNone; description := XNone |}
  = ({| name := "EmpJob"; keys := ["userId"]; fields := [mk_field "userId" None "" "Id."];
        module := XNone; description := XNone |}, Raise AttributeError) /\
  synthesis_steps (fun _ => "") (fun s => s) (fun s => s) (fun s => s)
    (Some "landing") (Some "analytics")
    {| name := "EmpJob"; keys := ["userId"]; fields := [mk_field "userId" None "" "Id."];
       module := XStr "Employee Central (EC)"; description := XNone |}
  = ({| name := "EmpJob"; keys := ["userId"]; fields := [mk_field "userId" None "" "Id."];
        module := XStr "Employee Central (EC)"; description := XNone |}, Raise TypeError) /\
  exists produced,
    synthesis_steps (fun _ => "") (fun s => s) (fun s => s) (fun s => s)
      (Some "landing") (Some "analytics") sample_descriptor
    = (widen_fields sample_descriptor, Ok produced) /\
    final_table_id produced = "landing.ds_sfsf_EC.EmpJob" /\
    rf_table_id produced = "analytics.ds_sfsf_EC.EmpJob" /\
    temp_table_id produced = "landing.ds_sfsf_EC.temp_EmpJob" /\
    load_schema produced = load_job_schema sample_descriptor.
Proof.
  split; [|split].
  - destruct (synthesis_steps_outcome (fun _ => "") (fun s => s) (fun s => s) (fun s => s)
                (Some "landing") (Some "analytics")
                {| name := "EmpJob"; keys := ["userId"];
                   fields := [mk_field "userId" None "" "Id."];
                   module := XNone; description := XNone |}) as [Hmodule _].
    apply Hmodule. discriminate.
  - destruct (synthesis_steps_outcome (fun _ => "") (fun s => s) (fun s => s) (fun s => s)
                (Some "landing") (Some "analytics")
                {| name := "EmpJob"; keys := ["userId"];
                   fields := [mk_field "userId" None "" "Id."];
                   module := XStr "Employee Central (EC)"; description := XNone |})
      as [_ Htext].
    apply (Htext "Employee Central (EC)" eq_refl). apply Exists_cons_hd. reflexivity.
  - destruct (synthesis_steps_outcome (fun _ => "") (fun s => s) (fun s => s) (fun s => s)
                (Some "landing") (Some "analytics") sample_descriptor) as [_ Htext].
    apply (Htext "Employee Central (EC)" eq_refl). repeat constructor; discriminate.
Defined.

Lemma insert_statement_follows_staging_order_witness :
  exists select_lines,
    length select_lines = 3%nat /\
    (exists line,
        select_lines !! 2%nat = Some line /\
        select_line (field_mapping sample_final_schema) (SchemaField "seqNumber" "STRING")
          = Ok line) /\
    insert_raw_into_final_bq "final" "temp" sample_final_schema sample_raw_schema =
    Ok ((nl +:+ sp4 +:+ "INSERT INTO ") +:+ "final" +:+ ("(" +:+ nl +:+ sp4) +:+
        join ("," +:+ nl) (map sf_name sample_raw_schema) +:+
        (nl +:+ sp4 +:+ ")" +:+ nl +:+ sp4 +:+ "SELECT" +:+ nl +:+ sp4) +:+
        join ("," +:+ nl) select_lines +:+
        (nl +:+ sp4 +:+ "FROM ") +:+ "temp" +:+ (";" +:+ nl +:+ sp4)).
Proof.
  destruct (insert_statement_follows_staging_order "final" "temp"
              sample_final_schema sample_raw_schema)
    as (select_lines & Hlength & Hlines & Hstatement).
  exists select_lines. split; [exact Hlength|]. split; [|exact Hstatement].
  apply (Hlines 2%nat (SchemaField "seqNumber" "STRING")). reflexivity.
Defined.
